(** * PrasadMatrixToGraphToHTML: multiplex graph to 3D scene and matrix tables

    A shallow embedding of [plot_3d_multilayer_graph_with_synced_colors]
    (src/PrasadMatrixToGraphToHTML.py) and the properties of the primitives
    and of the table markup it builds.

    Conventions of the embedding.
    - A Python list is a [list]; the 3D array is [list (list (list Z))], its
      entries are Python integers.
    - A Python exception is a value of [exn]; code that can raise lives in
      the [result] monad, with the statements in source order.
    - Layout coordinates and colour channels are binary64 floats
      ([PrimFloat.float]); [int(c*255)] is computed on them bit for bit.
    - A layer depth is [layer_index * 2.0].  The product of an integer below
      2^53 by 2.0 is exact in binary64, so depths are kept as the rationals
      they denote ([Q]).
    - The three library calls ([nx.spring_layout], [cm.get_cmap],
      [fig.to_html]) are parameters of the script; [fig.to_html] takes the
      identifier it draws for the plot's [div] as an argument.
    - The operating system is a parameter too: the state of the files and
      of the standard output is an abstract [world], and the file write and
      the [print] return the world they leave and the exception they
      raised, if any. *)

From Stdlib Require Import ZArith QArith List String Ascii Bool Lia.
From Stdlib Require Import PrimFloat SpecFloat FloatOps.
From Stdlib Require Import Decimal DecimalString DecimalPos DecimalZ.
Import ListNotations.

Set Implicit Arguments.
Set Warnings "-inexact-float".

Close Scope Q_scope.
Open Scope list_scope.
Open Scope string_scope.

(* ================================================================== *)
(** ** The Python runtime the script relies on *)
(* ================================================================== *)

Module Py.

(** The built-in exceptions the script can raise. *)
Inductive exn : Type :=
  | IndexError
  | ValueError
  | OverflowError
  | OSError.

Inductive result (A : Type) : Type :=
  | Ok (a : A)
  | Raise (e : exn).
Arguments Ok {A} a.
Arguments Raise {A} e.

Definition bind {A B : Type} (m : result A) (k : A -> result B) : result B :=
  match m with
  | Ok a => k a
  | Raise e => Raise e
  end.

Definition is_ok {A : Type} (m : result A) : bool :=
  match m with
  | Ok _ => true
  | Raise _ => false
  end.

(** [for x in xs: body], the loop's variables threaded as [s]. *)
Fixpoint for_in {A S : Type} (xs : list A) (body : A -> S -> result S)
         (s : S) : result S :=
  match xs with
  | [] => Ok s
  | x :: xs' => bind (body x s) (for_in xs' body)
  end.

(** [range(n)] *)
Definition range (n : nat) : list nat := seq 0 n.

(** [enumerate(xs)] *)
Definition enumerate {A : Type} (xs : list A) : list (nat * A) :=
  combine (seq 0 (List.length xs)) xs.

(** [xs[i]] for a non-negative [i]. *)
Definition index {A : Type} (xs : list A) (i : nat) : result A :=
  match nth_error xs i with
  | Some x => Ok x
  | None => Raise IndexError
  end.

(** [min(xs)] and [max(xs)] on floats: the first item, replaced by a later
  one that compares strictly below (above) it. *)
Definition least (x : float) (xs : list float) : float :=
  fold_left (fun best item => if PrimFloat.ltb item best then item else best) xs x.

Definition greatest (x : float) (xs : list float) : float :=
  fold_left (fun best item => if PrimFloat.ltb best item then item else best) xs x.

Definition min (xs : list float) : result float :=
  match xs with
  | [] => Raise ValueError
  | x :: xs' => Ok (least x xs')
  end.

Definition max (xs : list float) : result float :=
  match xs with
  | [] => Raise ValueError
  | x :: xs' => Ok (greatest x xs')
  end.

(** [int(f)]: truncation toward zero; NaN and the infinities raise. *)
Definition int_of_float (f : float) : result Z :=
  match Prim2SF f with
  | S754_zero _ => Ok 0%Z
  | S754_infinity _ => Raise OverflowError
  | S754_nan => Raise ValueError
  | S754_finite s m e =>
      let a := if (0 <=? e)%Z
               then (Z.pos m * 2 ^ e)%Z
               else (Z.pos m / 2 ^ (- e))%Z in
      Ok (if s then (- a)%Z else a)
  end.

(** The decimal digits of an integer, with its sign. *)
Definition str (i : Z) : string := NilZero.string_of_int (Z.to_int i).

(** [f"{n}"] for an index or a length of a list, which is far below the
  limit of [format_int]. *)
Definition str_nat (n : nat) : string := str (Z.of_nat n).

(** The number of decimal digits of an integer, its sign left out. *)
Definition digits (i : Z) : nat := String.length (str (Z.abs i)).

(** [sys.get_int_max_str_digits()] as the interpreter starts. *)
Definition int_max_str_digits : nat := 4300.

(** [f"{i}"] for an integer of the input: [str(i)], which the interpreter
  refuses with ValueError when [i] has more digits than the limit. *)
Definition format_int (i : Z) : result string :=
  if (int_max_str_digits <? digits i)%nat then Raise ValueError else Ok (str i).

End Py.

Import Py.

Notation "x <- m ;; k" := (bind m (fun x => k))
  (at level 61, m at next level, right associativity).

(* ================================================================== *)
(** ** The plotting-library objects the script constructs *)
(* ================================================================== *)

Module Plotly.

Definition rgba : Type := (float * float * float * float)%type.

(** A value given as [color=...]: a colour name or CSS string, or the
  tuple of floats a matplotlib colormap returns. *)
Inductive Color : Type :=
  | ColorStr (s : string)
  | ColorTuple (c : rgba).

Record Marker : Type := mkMarker
  { marker_size : Z;
    marker_color : Color }.

Record Line : Type := mkLine
  { line_color : Color;
    line_width : Z;
    line_dash : option string }.

(** [go.Scatter3d(...)] with the keyword arguments the script passes. *)
Record Scatter3d : Type := mkScatter3d
  { s_x : list float;
    s_y : list float;
    s_z : list Q;
    s_mode : string;
    s_marker : option Marker;
    s_line : option Line;
    s_text : option (list string);
    s_textposition : option string;
    s_name : string }.

(** [go.Mesh3d(...)] *)
Record Mesh3d : Type := mkMesh3d
  { m_x : list float;
    m_y : list float;
    m_z : list Q;
    m_opacity : float;
    m_color : Color;
    m_name : string;
    m_showscale : bool }.

Inductive Trace : Type :=
  | TScatter3d (s : Scatter3d)
  | TMesh3d (m : Mesh3d).

Record Scene : Type := mkScene
  { xaxis_showbackground : bool;
    yaxis_showbackground : bool;
    zaxis_showbackground : bool }.

Record Layout : Type := mkLayout
  { title : string;
    showlegend : bool;
    scene : Scene }.

(** [go.Figure(data=traces)] after [update_layout]. *)
Record Figure : Type := mkFigure
  { data : list Trace;
    layout : Layout }.

End Plotly.

Import Plotly.

Definition matrix3d : Type := list (list (list Z)).

Definition nl : string := String "010"%char EmptyString.
Definition dq : string := String "034"%char EmptyString.

(* ================================================================== *)
(** ** The script *)
(* ================================================================== *)

Section Script.

(** [spring_layout n seed k]: the position of node [k] in
  [nx.spring_layout(nx.complete_graph(n), dim=2, seed=seed)].  The
  returned mapping has the keys [0..n-1]; the script reads it only at
  keys drawn from [range(n)]. *)
Variable spring_layout : nat -> Z -> nat -> float * float.

(** [get_cmap name lut i]: the tuple [cm.get_cmap(name, lut)(i)]. *)
Variable get_cmap : string -> nat -> nat -> rgba.

(** [to_html div_id fig]: [fig.to_html(full_html=True,
  include_plotlyjs='cdn')].  The call gives no [div_id], so the library
  draws [str(uuid.uuid4())] for the [id] of the plot's [div]; [div_id] is
  that draw. *)
Variable to_html : string -> Figure -> string.

(** The operating system.  [os_write filename content w] is the statement
  [with open(filename, "w") as f: f.write(content)] run in the world [w],
  and [os_print line w] is [print(line)]: each gives the world it leaves
  and the exception it raised, if any. *)
Variable world : Type.
Variable os_write : string -> string -> world -> world * option exn.
Variable os_print : string -> world -> world * option exn.

Definition z_offset (layer_index : nat) : Q :=
  (inject_Z (Z.of_nat layer_index) * 2)%Q.

Section Geometry.

Variable base_pos : nat -> float * float.
Variable color_map : nat -> rgba.
Variable n : nat.

Definition x_nodes : list float := map (fun k => fst (base_pos k)) (range n).
Definition y_nodes : list float := map (fun k => snd (base_pos k)) (range n).
Definition z_nodes (layer_index : nat) : list Q :=
  map (fun _ => z_offset layer_index) (range n).

Definition node_trace (layer_index : nat) : Trace :=
  TScatter3d
    {| s_x := x_nodes; s_y := y_nodes; s_z := z_nodes layer_index;
       s_mode := "markers+text";
       s_marker := Some {| marker_size := 10; marker_color := ColorStr "lightblue" |};
       s_line := None;
       s_text := Some (map (fun k => str_nat k ++ " (L" ++ str_nat (layer_index + 1) ++ ")")
                           (range n));
       s_textposition := Some "top center";
       s_name := "Layer " ++ str_nat (layer_index + 1) ++ " Nodes" |}.

Definition edge_trace (layer_index i j : nat) : Trace :=
  let '(x0, y0) := base_pos i in
  let '(x1, y1) := base_pos j in
  let '(z0, z1) := (z_offset layer_index, z_offset layer_index) in
  TScatter3d
    {| s_x := [x0; x1]; s_y := [y0; y1]; s_z := [z0; z1];
       s_mode := "lines";
       s_marker := None;
       s_line := Some {| line_color := ColorTuple (color_map layer_index);
                         line_width := 4;
                         line_dash := None |};
       s_text := None;
       s_textposition := None;
       s_name := "Layer " ++ str_nat (layer_index + 1) ++ " Edge" |}.

Definition plane_trace (layer_index : nat) : result Trace :=
  xmin <- Py.min x_nodes ;;
  xmax <- Py.max x_nodes ;;
  ymin <- Py.min y_nodes ;;
  ymax <- Py.max y_nodes ;;
  let z := z_offset layer_index in
  Ok (TMesh3d
        {| m_x := [xmin; xmax; xmax; xmin];
           m_y := [ymin; ymin; ymax; ymax];
           m_z := [z; z; z; z];
           m_opacity := 0.15%float;
           m_color := ColorStr "lightgray";
           m_name := "Layer " ++ str_nat (layer_index + 1) ++ " Plane";
           m_showscale := false |}).

Definition inter_edge (node layer_index : nat) : Trace :=
  let '(x, y) := base_pos node in
  let z0 := z_offset layer_index in
  let z1 := z_offset (layer_index + 1) in
  TScatter3d
    {| s_x := [x; x]; s_y := [y; y]; s_z := [z0; z1];
       s_mode := "lines";
       s_marker := None;
       s_line := Some {| line_color := ColorStr "gray";
                         line_width := 2;
                         line_dash := Some "dot" |};
       s_text := None;
       s_textposition := None;
       s_name := "Inter-layer Node " ++ str_nat node |}.

(** Lines 44-56: the scan of one layer's matrix. *)
Definition intra_layer_edges (layer_index : nat) (matrix : list (list Z))
           (traces : list Trace) : result (list Trace) :=
  for_in (range n) (fun i traces =>
    for_in (range n) (fun j traces =>
      row <- index matrix i ;;
      v <- index row j ;;
      if negb (v =? 0)%Z
      then Ok (traces ++ [edge_trace layer_index i j])%list
      else Ok traces) traces) traces.

(** Lines 25-68: one iteration of the loop over the layers. *)
Definition layer_body (array3d : matrix3d) (layer_index : nat)
           (traces : list Trace) : result (list Trace) :=
  let traces := (traces ++ [node_trace layer_index])%list in
  matrix <- index array3d layer_index ;;
  traces <- intra_layer_edges layer_index matrix traces ;;
  plane <- plane_trace layer_index ;;
  Ok (traces ++ [plane])%list.

(** Lines 71-82: the vertical links, node by node. *)
Definition inter_layer_edges (num_layers : nat) (traces : list Trace)
  : list Trace :=
  fold_left (fun traces node =>
    fold_left (fun traces layer_index =>
                 (traces ++ [inter_edge node layer_index])%list)
              (range (num_layers - 1)) traces)
    (range n) traces.

End Geometry.

(** Lines 13-82: everything appended to [traces]. *)
Definition build_traces (array3d : matrix3d) : result (list Trace) :=
  first <- index array3d 0 ;;
  let n := List.length first in
  let num_layers := List.length array3d in
  let color_map := get_cmap "tab10" num_layers in
  let base_pos := spring_layout n 42 in
  let traces := [] in
  traces <- for_in (range num_layers)
                   (layer_body base_pos color_map n array3d) traces ;;
  Ok (inter_layer_edges base_pos n num_layers traces).

(** Lines 84-93. *)
Definition make_figure (traces : list Trace) : Figure :=
  {| data := traces;
     layout := {| title := "Multiplex Graph with Transparent Layer Planes";
                  showlegend := false;
                  scene := {| xaxis_showbackground := false;
                              yaxis_showbackground := false;
                              zaxis_showbackground := false |} |} |}.

(** Line 103: the CSS string of a colormap tuple. *)
Definition layer_color (c : rgba) : result string :=
  let '(c0, c1, c2, _) := c in
  r <- int_of_float (c0 * 255)%float ;;
  g <- int_of_float (c1 * 255)%float ;;
  b <- int_of_float (c2 * 255)%float ;;
  Ok ("rgb(" ++ str r ++ ", " ++ str g ++ ", " ++ str b ++ ")").

(** Lines 109-114: one cell appended to [html_table]. *)
Definition table_cell (layer_color : string) (val : Z) (html_table : string)
  : result string :=
  let cell_color := if (val =? 0)%Z then "white" else layer_color in
  text <- format_int val ;;
  Ok (html_table ++ ("<td style='background-color:" ++ cell_color
                     ++ "; padding:5px; text-align:center;'>" ++ text ++ "</td>")).

(** Lines 107-115: one row appended to [html_table]. *)
Definition table_row (layer_color : string) (row : list Z)
           (html_table : string) : result string :=
  let html_table := html_table ++ "<tr>" in
  html_table <- for_in row (table_cell layer_color) html_table ;;
  Ok (html_table ++ "</tr>").

(** Lines 100-116: one iteration of the loop over [enumerate(array3d)]. *)
Definition table_body (color_map : nat -> rgba) (item : nat * list (list Z))
           (html_table : string) : result string :=
  let '(layer_index, matrix) := item in
  let rgba := color_map layer_index in
  layer_color <- layer_color rgba ;;
  let html_table :=
    html_table ++ ("<h3 style='color:" ++ layer_color ++ ";'>Layer "
                   ++ str_nat (layer_index + 1) ++ "</h3>") in
  let html_table :=
    html_table ++ "<table border='1' style='border-collapse:collapse;'>" in
  html_table <- for_in matrix (table_row layer_color) html_table ;;
  Ok (html_table ++ "</table><br>").

(** Lines 99-116. *)
Definition build_table (array3d : matrix3d) : result string :=
  let num_layers := List.length array3d in
  let color_map := get_cmap "tab10" num_layers in
  let html_table := "<h2>Matrix Values (Layer Colors)</h2>" in
  for_in (enumerate array3d) (table_body color_map) html_table.

(** Lines 119-132. *)
Definition html_content (html_graph html_table : string) : string :=
  nl ++ "    <!DOCTYPE html>" ++ nl
  ++ "    <html>" ++ nl
  ++ "    <head>" ++ nl
  ++ "      <title>Multiplex Graph with Matrix</title>" ++ nl
  ++ "      <script src=" ++ dq ++ "https://cdn.plot.ly/plotly-latest.min.js"
  ++ dq ++ "></script>" ++ nl
  ++ "    </head>" ++ nl
  ++ "    <body>" ++ nl
  ++ "      <h1>Multiplex Graph Visualization</h1>" ++ nl
  ++ "      " ++ html_graph ++ nl
  ++ "      " ++ html_table ++ nl
  ++ "    </body>" ++ nl
  ++ "    </html>" ++ nl
  ++ "    ".

(** Lines 13-132: the document, or the exception that ends the call.
  [div_id] is the identifier drawn inside [fig.to_html] at line 96. *)
Definition build_document (div_id : string) (array3d : matrix3d)
  : result string :=
  traces <- build_traces array3d ;;
  let fig := make_figure traces in
  let html_graph := to_html div_id fig in
  html_table <- build_table array3d ;;
  Ok (html_content html_graph html_table).

(** The whole call, in the run that draws [div_id]: the world after it and
  the exception it ended with, if any.  The file is opened at line 134 and
  nowhere else; the line of 137 is printed once the [with] block is left
  without an exception. *)
Definition plot_3d_multilayer_graph_with_synced_colors
           (array3d : matrix3d) (filename : string) (div_id : string)
           (w : world) : world * option exn :=
  match build_document div_id array3d with
  | Raise e => (w, Some e)
  | Ok content =>
      match os_write filename content w with
      | (w, Some e) => (w, Some e)
      | (w, None) =>
          os_print ("Visualization with synchronized matrix colors exported as "
                    ++ filename) w
      end
  end.

End Script.

(* ================================================================== *)
(** ** Vocabulary of the properties *)
(* ================================================================== *)

Definition count {A : Type} (p : A -> bool) (l : list A) : nat :=
  List.length (filter p l).

(** The [z] list of a primitive. *)
Definition trace_z (t : Trace) : list Q :=
  match t with
  | TScatter3d s => s_z s
  | TMesh3d m => m_z m
  end.

Definition trace_x (t : Trace) : list float :=
  match t with
  | TScatter3d s => s_x s
  | TMesh3d m => m_x m
  end.

Definition trace_y (t : Trace) : list float :=
  match t with
  | TScatter3d s => s_y s
  | TMesh3d m => m_y m
  end.

(** The four kinds of primitive, told apart by what the script sets. *)
Definition is_node_trace (t : Trace) : bool :=
  match t with
  | TScatter3d s => String.eqb (s_mode s) "markers+text"
  | TMesh3d _ => false
  end.

Definition is_line (t : Trace) : bool :=
  match t with
  | TScatter3d s => String.eqb (s_mode s) "lines"
  | TMesh3d _ => false
  end.

Definition trace_dash (t : Trace) : option string :=
  match t with
  | TScatter3d s =>
      match s_line s with
      | Some l => line_dash l
      | None => None
      end
  | TMesh3d _ => None
  end.

Definition is_intra_edge (t : Trace) : bool :=
  is_line t && match trace_dash t with None => true | Some _ => false end.

Definition is_inter_edge (t : Trace) : bool :=
  is_line t && match trace_dash t with None => false | Some _ => true end.

Definition is_plane (t : Trace) : bool :=
  match t with
  | TScatter3d _ => false
  | TMesh3d _ => true
  end.

(** The primitive lies flat at depth [z]. *)
Definition at_depth (z : Q) (t : Trace) : bool :=
  match trace_z t with
  | [] => false
  | zs => forallb (Qeq_bool z) zs
  end.

(** The colour a primitive is drawn in. *)
Definition trace_color (t : Trace) : option Color :=
  match t with
  | TScatter3d s =>
      match s_line s, s_marker s with
      | Some l, _ => Some (line_color l)
      | None, Some m => Some (marker_color m)
      | None, None => None
      end
  | TMesh3d m => Some (m_color m)
  end.

(** [matrix[i][j]], 0 outside the matrix. *)
Definition entry (matrix : list (list Z)) (i j : nat) : Z :=
  nth j (nth i matrix []) 0%Z.

Definition nonzero (v : Z) : bool := negb (v =? 0)%Z.

(** The ordered pairs [(i, j)] of [range(n) x range(n)] with a non-zero
    entry, in scan order. *)
Definition nonzero_pairs (n : nat) (matrix : list (list Z)) : list (nat * nat) :=
  filter (fun ij => nonzero (entry matrix (fst ij) (snd ij)))
         (list_prod (range n) (range n)).

(** The number of non-zero entries of a matrix. *)
Definition count_nonzero (matrix : list (list Z)) : nat :=
  count nonzero (List.concat matrix).

Definition node_count (array3d : matrix3d) : nat :=
  List.length (hd [] array3d).

(** A valid multiplex graph: at least one layer, a positive node count [n],
    every layer [n] rows of [n] entries. *)
Definition square (n : nat) (matrix : list (list Z)) : bool :=
  (List.length matrix =? n)%nat && forallb (fun row => (List.length row =? n)%nat) matrix.

Definition valid (array3d : matrix3d) : bool :=
  match array3d with
  | [] => false
  | _ :: _ => (0 <? node_count array3d)%nat && forallb (square (node_count array3d)) array3d
  end.

(** What the script needs of a layer to get through its scan: [n] rows at
    least, and [n] entries at least in each of the first [n] rows. *)
Definition covers (n : nat) (matrix : list (list Z)) : bool :=
  (n <=? List.length matrix)%nat
  && forallb (fun row => (n <=? List.length row)%nat) (firstn n matrix).

Definition accepts (array3d : matrix3d) : bool :=
  match array3d with
  | [] => false
  | _ :: _ => (0 <? node_count array3d)%nat && forallb (covers (node_count array3d)) array3d
  end.

(** A channel as an 8-bit value: the integer part of [c * 255] (0 where
    [c * 255] is not a finite number). *)
Definition channel8 (c : float) : Z :=
  match int_of_float (c * 255)%float with
  | Ok z => z
  | Raise _ => 0%Z
  end.

(** The three colour channels of a tuple are finite once scaled by 255. *)
Definition converts (c : rgba) : bool :=
  let '(c0, c1, c2, _) := c in
  is_ok (int_of_float (c0 * 255)%float)
  && is_ok (int_of_float (c1 * 255)%float)
  && is_ok (int_of_float (c2 * 255)%float).

(** The colormap converts at every layer of the input. *)
Definition palette_ok (get_cmap : string -> nat -> nat -> rgba)
           (array3d : matrix3d) : bool :=
  forallb (fun L => converts (get_cmap "tab10" (List.length array3d) L))
          (range (List.length array3d)).

(** Every entry of the input prints within the interpreter's limit. *)
Definition printable (array3d : matrix3d) : bool :=
  forallb (forallb (forallb (fun v => (digits v <=? int_max_str_digits)%nat)))
          array3d.

(** The CSS colour of a tuple: [rgb(r, g, b)] of its first three channels
    as 8-bit values. *)
Definition css (c : rgba) : string :=
  let '(c0, c1, c2, _) := c in
  "rgb(" ++ str (channel8 c0) ++ ", " ++ str (channel8 c1) ++ ", "
  ++ str (channel8 c2) ++ ")".

Definition lo (xs : list float) : float := least (hd 0%float xs) (tl xs).
Definition hi (xs : list float) : float := greatest (hd 0%float xs) (tl xs).

(** The plane of a layer, for a non-empty node set. *)
Definition plane (base_pos : nat -> float * float) (n layer_index : nat) : Trace :=
  let xs := x_nodes base_pos n in
  let ys := y_nodes base_pos n in
  let z := z_offset layer_index in
  TMesh3d
    {| m_x := [lo xs; hi xs; hi xs; lo xs];
       m_y := [lo ys; lo ys; hi ys; hi ys];
       m_z := [z; z; z; z];
       m_opacity := 0.15%float;
       m_color := ColorStr "lightgray";
       m_name := "Layer " ++ str_nat (layer_index + 1) ++ " Plane";
       m_showscale := false |}.

(** The primitives of one layer, in the order they are appended. *)
Definition layer_block (base_pos : nat -> float * float) (color_map : nat -> rgba)
           (n : nat) (array3d : matrix3d) (layer_index : nat) : list Trace :=
  node_trace base_pos n layer_index
  :: map (fun ij => edge_trace base_pos color_map layer_index (fst ij) (snd ij))
         (nonzero_pairs n (nth layer_index array3d []))
  ++ [plane base_pos n layer_index].

(** The vertical links, in the order they are appended. *)
Definition inter_block (base_pos : nat -> float * float) (n num_layers : nat)
  : list Trace :=
  flat_map (fun node => map (inter_edge base_pos node) (range (num_layers - 1)))
           (range n).

(** Table markup, piece by piece. *)
Definition join (l : list string) : string := fold_right String.append EmptyString l.

Definition cell_html (layer_color : string) (val : Z) : string :=
  "<td style='background-color:" ++ (if (val =? 0)%Z then "white" else layer_color)
  ++ "; padding:5px; text-align:center;'>" ++ str val ++ "</td>".

Definition row_html (layer_color : string) (row : list Z) : string :=
  "<tr>" ++ join (map (cell_html layer_color) row) ++ "</tr>".

Definition heading_html (layer_color : string) (layer_index : nat) : string :=
  "<h3 style='color:" ++ layer_color ++ ";'>Layer " ++ str_nat (layer_index + 1)
  ++ "</h3>".

Definition layer_html (layer_color : string) (layer_index : nat)
           (matrix : list (list Z)) : string :=
  heading_html layer_color layer_index
  ++ "<table border='1' style='border-collapse:collapse;'>"
  ++ join (map (row_html layer_color) matrix)
  ++ "</table><br>".

Definition table_block (color_map : nat -> rgba) (item : nat * list (list Z)) : string :=
  layer_html (css (color_map (fst item))) (fst item) (snd item).

(** Everything the script appends to [traces], for an input it gets through:
    layer by layer, then the vertical links. *)
Definition expected_traces (spring_layout : nat -> Z -> nat -> float * float)
           (get_cmap : string -> nat -> nat -> rgba) (array3d : matrix3d)
  : list Trace :=
  let n := node_count array3d in
  let num_layers := List.length array3d in
  let base_pos := spring_layout n 42%Z in
  let color_map := get_cmap "tab10" num_layers in
  (flat_map (layer_block base_pos color_map n array3d) (range num_layers)
   ++ inter_block base_pos n num_layers)%list.

(** The table markup, layer by layer. *)
Definition expected_table (get_cmap : string -> nat -> nat -> rgba)
           (array3d : matrix3d) : string :=
  "<h2>Matrix Values (Layer Colors)</h2>"
  ++ join (map (table_block (get_cmap "tab10" (List.length array3d)))
               (enumerate array3d)).

Definition node_trace_at (L : nat) (t : Trace) : bool :=
  is_node_trace t && at_depth (z_offset L) t.

Definition intra_edge_at (L : nat) (t : Trace) : bool :=
  is_intra_edge t && at_depth (z_offset L) t.

Definition plane_at (L : nat) (t : Trace) : bool :=
  is_plane t && at_depth (z_offset L) t.

Definition all_zero (matrix : list (list Z)) : bool :=
  forallb (forallb (fun v => (v =? 0)%Z)) matrix.

Definition is_pair (i j : nat) (ij : nat * nat) : bool :=
  (fst ij =? i)%nat && (snd ij =? j)%nat.

Definition is_tuple_color (c : option Color) : bool :=
  match c with
  | Some (ColorTuple _) => true
  | _ => false
  end.

(** The coordinates of a primitive: its [x], [y] and [z] lists. *)
Definition coords (t : Trace) : list float * list float * list Q :=
  (trace_x t, trace_y t, trace_z t).

(** What a layout [base_pos] of [n] nodes prescribes: the marker set of
    layer [L] lists node [k] at [base_pos k], all at the depth of [L]; the
    edge of the ordered pair [(i, j)] in layer [L] goes from [base_pos i] to
    [base_pos j] at the depth of [L]; the link of node [k] above layer [L]
    stays at [base_pos k] from the depth of [L] to the depth of [L + 1]. *)
Definition marker_coords (base_pos : nat -> float * float) (n L : nat)
  : list float * list float * list Q :=
  (map (fun k => fst (base_pos k)) (range n),
   map (fun k => snd (base_pos k)) (range n),
   map (fun _ => z_offset L) (range n)).

Definition edge_coords (base_pos : nat -> float * float) (L : nat)
           (ij : nat * nat) : list float * list float * list Q :=
  ([fst (base_pos (fst ij)); fst (base_pos (snd ij))],
   [snd (base_pos (fst ij)); snd (base_pos (snd ij))],
   [z_offset L; z_offset L]).

Definition link_coords (base_pos : nat -> float * float) (k L : nat)
  : list float * list float * list Q :=
  ([fst (base_pos k); fst (base_pos k)],
   [snd (base_pos k); snd (base_pos k)],
   [z_offset L; z_offset (L + 1)]).

(** A primitive is of one of the four kinds. *)
Definition is_known (t : Trace) : bool :=
  is_node_trace t || is_intra_edge t || is_plane t || is_inter_edge t.

(** The [name=...] of a primitive. *)
Definition trace_name (t : Trace) : string :=
  match t with
  | TScatter3d s => s_name s
  | TMesh3d m => m_name m
  end.

(** Where the entries of an input are zero and where they are not. *)
Definition pattern (array3d : matrix3d) : list (list (list bool)) :=
  map (map (map nonzero)) array3d.

(** The input cut down to the [n] by [n] block of every layer, [n] the
    number of rows of the first layer. *)
Definition crop (array3d : matrix3d) : matrix3d :=
  map (fun matrix => map (firstn (node_count array3d))
                         (firstn (node_count array3d) matrix))
      array3d.

(** The number of non-zero entries of all layers. *)
Definition total_nonzero (array3d : matrix3d) : nat :=
  list_sum (map count_nonzero array3d).

(** Reading back a printed integer. *)
Definition parse_int (s : string) : option Z :=
  option_map Z.of_int (NilZero.int_of_string s).

(** The line printed at the end of a call that got through (line 137). *)
Definition export_message (filename : string) : string :=
  "Visualization with synchronized matrix colors exported as " ++ filename.

(* ================================================================== *)
(** ** The example of the script and stand-ins for the libraries *)
(* ================================================================== *)

Module Samples.

(** The array [A] of lines 141-157. *)
Definition A : matrix3d :=
  [ [ [0; 1; 0]; [0; 0; 2]; [3; 0; 0] ];
    [ [0; 4; 0]; [5; 0; 0]; [0; 0; 6] ];
    [ [0; 0; 7]; [0; 0; 8]; [9; 0; 0] ] ]%Z.

(** A layout: the corners of a triangle, whatever the seed. *)
Definition layout (n : nat) (seed : Z) (k : nat) : float * float :=
  match k with
  | 0 => (1, 0)%float
  | 1 => (-0.5, 0.8660254037844386)%float
  | _ => (-0.5, -0.8660254037844386)%float
  end.

(** A colormap: three entries of the tab10 palette (blue, brown, cyan),
    the last one repeated above index 2. *)
Definition cmap (name : string) (lut : nat) (i : nat) : rgba :=
  match i with
  | 0 => (0.12156862745098039, 0.4666666666666667, 0.7058823529411765, 1)%float
  | 1 => (0.5490196078431373, 0.33725490196078434, 0.29411764705882354, 1)%float
  | _ => (0.09019607843137255, 0.7450980392156863, 0.8117647058823529, 1)%float
  end.

(** A serializer that keeps the identifier of the [div] and the number of
    traces. *)
Definition serializer (div_id : string) (fig : Figure) : string :=
  "<div id='" ++ div_id ++ "'>" ++ str_nat (List.length (data fig))
  ++ " traces</div>".

(** A file system held in memory, where every path names its own file and
    every write and every print goes through. *)
Record memory : Type := mkMemory
  { files : string -> option string;
    stdout : list string }.

Definition memory_write (path content : string) (w : memory)
  : memory * option exn :=
  ({| files := fun p => if String.eqb p path then Some content else files w p;
      stdout := stdout w |}, None).

Definition memory_print (line : string) (w : memory) : memory * option exn :=
  ({| files := files w; stdout := (stdout w ++ [line])%list |}, None).

(** A file system that refuses every write. *)
Definition refused_write (path content : string) (w : memory)
  : memory * option exn :=
  (w, Some OSError).

(** One 2x3 layer: not square. *)
Definition wide : matrix3d := [ [ [0; 1; 5]; [1; 0; 7] ] ]%Z.

(** Two layers, the second larger than the first. *)
Definition mismatched : matrix3d :=
  [ [ [0; 1]; [1; 0] ]; [ [0; 0; 2]; [3; 0; 0]; [0; 4; 0] ] ]%Z.

(** One layer with a self-loop at node 1. *)
Definition looped : matrix3d := [ [ [0; 1]; [0; 5] ] ]%Z.

(** A single all-zero layer. *)
Definition blank : matrix3d := [ [ [0; 0]; [0; 0] ] ]%Z.

Definition empty_world : memory := {| files := fun _ => None; stdout := [] |}.

(** The array [A] with other weights at the same places. *)
Definition reweighted : matrix3d :=
  [ [ [0; 7; 0]; [0; 0; 7]; [-1; 0; 0] ];
    [ [0; 1; 0]; [1; 0; 0]; [0; 0; 1] ];
    [ [0; 0; 2]; [0; 0; 3]; [4; 0; 0] ] ]%Z.

(** One layer with an edge in both directions between nodes 0 and 1. *)
Definition both_ways : matrix3d := [ [ [0; 3]; [4; 0] ] ]%Z.

(** A colormap whose first channel is not a number. *)
Definition nan_cmap (name : string) (lut : nat) (i : nat) : rgba :=
  (PrimFloat.nan, 0, 0, 1)%float.

(** The array [A] with its first layer emptied. *)
Definition relayered : matrix3d :=
  [ [ [0; 0; 0]; [0; 0; 0]; [0; 0; 0] ];
    [ [0; 4; 0]; [5; 0; 0]; [0; 0; 6] ];
    [ [0; 0; 7]; [0; 0; 8]; [9; 0; 0] ] ]%Z.


(** One layer of one node whose entry has 4301 digits. *)
Definition long_entry : matrix3d := [ [ [10 ^ 4300] ] ]%Z.

(** A world with one file in it. *)
Definition one_file : memory :=
  {| files := fun p => if String.eqb p "notes.txt" then Some "kept" else None;
     stdout := ["earlier"] |}.

End Samples.

(* ================================================================== *)
(** ** Loops, lists and strings *)
(* ================================================================== *)

Section ForIn.

Context {A S : Type}.
Implicit Types (body : A -> S -> result S) (xs : list A).

(** A loop whose body never raises is a left fold. *)
Lemma for_in_fold (f : S -> A -> S) body xs :
  forall s,
    (forall x s0, In x xs -> body x s0 = Ok (f s0 x)) ->
    for_in xs body s = Ok (fold_left f xs s).
Proof.
  induction xs as [|x xs IH]; intros s Hbody; simpl.
  - reflexivity.
  - rewrite (Hbody x s) by (left; reflexivity). simpl.
    apply IH. intros y s0 Hy. apply Hbody. right; exact Hy.
Qed.

(** A loop that ends normally ran every iteration normally. *)
Lemma for_in_ok_inv body xs :
  forall s s', for_in xs body s = Ok s' ->
  forall x, In x xs -> exists s1 s2, body x s1 = Ok s2.
Proof.
  induction xs as [|y xs IH]; intros s s' Hrun x Hin; simpl in *.
  - contradiction.
  - destruct (body y s) as [s1|e] eqn:Hy; simpl in Hrun; [|discriminate].
    destruct Hin as [->|Hin].
    + exists s, s1. exact Hy.
    + eapply IH; eauto.
Qed.

(** A loop that raises does so from one of its iterations. *)
Lemma for_in_raise_inv body xs :
  forall s e, for_in xs body s = Raise e ->
  exists x s1, In x xs /\ body x s1 = Raise e.
Proof.
  induction xs as [|y xs IH]; intros s e Hrun; simpl in *.
  - discriminate.
  - destruct (body y s) as [s1|e1] eqn:Hy; simpl in Hrun.
    + destruct (IH _ _ Hrun) as (x & s2 & Hin & Hx).
      exists x, s2. split; [right; exact Hin | exact Hx].
    + inversion Hrun; subst. exists y, s. split; [left; reflexivity | exact Hy].
Qed.

End ForIn.

Lemma fold_left_append {A B : Type} (g : A -> list B) (xs : list A) :
  forall s, fold_left (fun s0 x => s0 ++ g x)%list xs s = (s ++ flat_map g xs)%list.
Proof.
  induction xs as [|x xs IH]; intros s; simpl.
  - now rewrite app_nil_r.
  - rewrite IH. now rewrite app_assoc.
Qed.

Lemma flat_map_guard {A B : Type} (p : A -> bool) (f : A -> B) (l : list A) :
  flat_map (fun x => if p x then [f x] else []) l = map f (filter p l).
Proof.
  induction l as [|x l IH]; simpl; [reflexivity|].
  destruct (p x); simpl; now rewrite IH.
Qed.

Lemma filter_flat_map {A B : Type} (p : B -> bool) (g : A -> list B) (l : list A) :
  filter p (flat_map g l) = flat_map (fun x => filter p (g x)) l.
Proof.
  induction l as [|x l IH]; simpl; [reflexivity|].
  now rewrite filter_app, IH.
Qed.

Lemma map_flat_map {A B C : Type} (f : B -> C) (g : A -> list B) (l : list A) :
  map f (flat_map g l) = flat_map (fun x => map f (g x)) l.
Proof.
  induction l as [|x l IH]; simpl; [reflexivity|].
  now rewrite map_app, IH.
Qed.

Lemma flat_map_ext_in {A B : Type} (f g : A -> list B) (l : list A) :
  (forall x, In x l -> f x = g x) -> flat_map f l = flat_map g l.
Proof.
  induction l as [|x l IH]; simpl; intros H; [reflexivity|].
  rewrite (H x) by (left; reflexivity).
  rewrite IH; [reflexivity|]. intros y Hy. apply H. right; exact Hy.
Qed.

Lemma count_app {A : Type} (p : A -> bool) (l1 l2 : list A) :
  count p (l1 ++ l2) = count p l1 + count p l2.
Proof. unfold count. now rewrite filter_app, length_app. Qed.

Lemma count_none {A : Type} (p : A -> bool) (l : list A) :
  (forall x, In x l -> p x = false) -> count p l = 0.
Proof.
  unfold count. induction l as [|x l IH]; simpl; intros H; [reflexivity|].
  rewrite (H x) by (left; reflexivity). apply IH. intros y Hy. apply H. right; exact Hy.
Qed.

Lemma count_all {A : Type} (p : A -> bool) (l : list A) :
  (forall x, In x l -> p x = true) -> count p l = List.length l.
Proof.
  unfold count. induction l as [|x l IH]; simpl; intros H; [reflexivity|].
  rewrite (H x) by (left; reflexivity). simpl. f_equal. apply IH.
  intros y Hy. apply H. right; exact Hy.
Qed.

Lemma count_flat_map_const {A B : Type} (p : B -> bool) (g : A -> list B)
      (c : nat) (l : list A) :
  (forall x, In x l -> count p (g x) = c) ->
  count p (flat_map g l) = List.length l * c.
Proof.
  induction l as [|x l IH]; simpl; intros H; [reflexivity|].
  rewrite count_app, (H x) by (left; reflexivity).
  rewrite IH; [reflexivity|]. intros y Hy. apply H. right; exact Hy.
Qed.

(** Only the block of [L] contributes. *)
Lemma count_flat_map_only {B : Type} (p : B -> bool) (g : nat -> list B)
      (N L : nat) :
  L < N ->
  (forall L', L' < N -> L' <> L -> count p (g L') = 0) ->
  count p (flat_map g (range N)) = count p (g L).
Proof.
  intros HL Hother. unfold range.
  replace N with (L + (1 + (N - L - 1))) by lia.
  rewrite !seq_app, !flat_map_app, !count_app. simpl.
  rewrite app_nil_r.
  rewrite (@count_flat_map_const _ _ p g 0 (seq 0 L)).
  - rewrite (@count_flat_map_const _ _ p g 0 (seq (L + 1) (N - L - 1))).
    + lia.
    + intros x Hx. apply in_seq in Hx. apply Hother; lia.
  - intros x Hx. apply in_seq in Hx. apply Hother; lia.
Qed.

Lemma index_nth {A : Type} (l : list A) (i : nat) (d : A) :
  i < List.length l -> index l i = Ok (nth i l d).
Proof.
  intros Hi. unfold index.
  destruct (nth_error l i) as [x|] eqn:Hx.
  - now rewrite (nth_error_nth _ _ d Hx).
  - apply nth_error_None in Hx. lia.
Qed.

Lemma index_ok_inv {A : Type} (l : list A) (i : nat) (x : A) :
  index l i = Ok x -> i < List.length l.
Proof.
  unfold index. destruct (nth_error l i) eqn:Hx; [|discriminate].
  intros _. apply nth_error_Some. congruence.
Qed.

Lemma index_raise_inv {A : Type} (l : list A) (i : nat) (e : exn) :
  index l i = Raise e -> e = IndexError.
Proof.
  unfold index. destruct (nth_error l i); [discriminate|]. congruence.
Qed.

Lemma forallb_firstn_nth {A : Type} (P : A -> bool) (d : A) :
  forall (k : nat) (l : list A),
    k <= List.length l ->
    (forallb P (firstn k l) = true <-> forall i, i < k -> P (nth i l d) = true).
Proof.
  induction k as [|k IH]; intros l Hk; simpl.
  - split; [intros _ i Hi; lia | reflexivity].
  - destruct l as [|a l]; simpl in *; [lia|].
    rewrite andb_true_iff, IH by lia. split.
    + intros [Ha Hl] [|i] Hi; [exact Ha | apply Hl; lia].
    + intros H. split; [apply (H 0); lia | intros i Hi; apply (H (S i)); lia].
Qed.

Lemma covers_spec (n : nat) (matrix : list (list Z)) :
  covers n matrix = true <->
  n <= List.length matrix /\
  forall i, i < n -> n <= List.length (nth i matrix []).
Proof.
  unfold covers. rewrite andb_true_iff, Nat.leb_le. split.
  - intros [Hn Hrows]. split; [exact Hn|].
    intros i Hi.
    apply (forallb_firstn_nth (fun row => (n <=? List.length row)%nat) []) with (i := i) in Hrows;
      [now apply Nat.leb_le in Hrows | exact Hn | exact Hi].
  - intros [Hn Hrows]. split; [exact Hn|].
    apply (forallb_firstn_nth (fun row => (n <=? List.length row)%nat) []); [exact Hn|].
    intros i Hi. apply Nat.leb_le. now apply Hrows.
Qed.

Lemma list_prod_flat_map {A B : Type} (l : list A) (l' : list B) :
  list_prod l l' = flat_map (fun x => map (pair x) l') l.
Proof.
  induction l as [|x l IH]; simpl; [reflexivity|]. now rewrite IH.
Qed.

Lemma guard_row {A B C : Type} (p : A * B -> bool) (f : A * B -> C) (i : A)
      (l : list B) :
  map f (filter p (map (pair i) l))
  = flat_map (fun j => if p (i, j) then [f (i, j)] else []) l.
Proof.
  induction l as [|j l IH]; simpl; [reflexivity|].
  destruct (p (i, j)); simpl; now rewrite IH.
Qed.

Lemma in_range (n k : nat) : In k (range n) <-> k < n.
Proof. unfold range. rewrite in_seq. lia. Qed.

Lemma length_range (n : nat) : List.length (range n) = n.
Proof. unfold range. apply length_seq. Qed.

(* ================================================================== *)
(** ** What the geometry loops append *)
(* ================================================================== *)

Section GeometryFacts.

Variable base_pos : nat -> float * float.
Variable color_map : nat -> rgba.
Variable n : nat.

(** The scan of a layer that has the rows and columns it reads appends one
    edge per non-zero entry of the [n] by [n] block, in scan order. *)
Lemma intra_layer_edges_ok (L : nat) (matrix : list (list Z)) (traces : list Trace) :
  covers n matrix = true ->
  intra_layer_edges base_pos color_map n L matrix traces
  = Ok (traces
        ++ map (fun ij => edge_trace base_pos color_map L (fst ij) (snd ij))
               (nonzero_pairs n matrix))%list.
Proof.
  intros Hc. apply covers_spec in Hc. destruct Hc as [Hrows Hcols].
  unfold intra_layer_edges.
  set (cell := fun i j =>
         if nonzero (entry matrix i j)
         then [edge_trace base_pos color_map L i j] else []).
  rewrite (for_in_fold (fun tr i => tr ++ flat_map (cell i) (range n))%list).
  - rewrite fold_left_append. do 2 f_equal.
    unfold nonzero_pairs. rewrite list_prod_flat_map, filter_flat_map, map_flat_map.
    apply flat_map_ext_in. intros i _.
    rewrite (guard_row
               (fun ij => nonzero (entry matrix (fst ij) (snd ij)))
               (fun ij => edge_trace base_pos color_map L (fst ij) (snd ij))).
    reflexivity.
  - intros i tr Hi. apply in_range in Hi.
    rewrite (for_in_fold (fun tr0 j => tr0 ++ cell i j)%list).
    + now rewrite fold_left_append.
    + intros j tr0 Hj. apply in_range in Hj.
      rewrite (index_nth matrix [] (i := i)) by lia. simpl.
      rewrite (index_nth (nth i matrix []) 0%Z (i := j))
        by (specialize (Hcols i Hi); lia).
      simpl. unfold cell, nonzero, entry.
      destruct (nth j (nth i matrix []) 0 =? 0)%Z; simpl;
        [now rewrite app_nil_r | reflexivity].
Qed.

Lemma min_lo (xs : list float) : xs <> [] -> Py.min xs = Ok (lo xs).
Proof. destruct xs; [congruence | reflexivity]. Qed.

Lemma max_hi (xs : list float) : xs <> [] -> Py.max xs = Ok (hi xs).
Proof. destruct xs; [congruence | reflexivity]. Qed.

Lemma x_nodes_nonempty : 0 < n -> x_nodes base_pos n <> [].
Proof.
  intros Hn H. apply (f_equal (@List.length _)) in H.
  unfold x_nodes in H. rewrite length_map, length_range in H. simpl in H. lia.
Qed.

Lemma y_nodes_nonempty : 0 < n -> y_nodes base_pos n <> [].
Proof.
  intros Hn H. apply (f_equal (@List.length _)) in H.
  unfold y_nodes in H. rewrite length_map, length_range in H. simpl in H. lia.
Qed.

Lemma plane_trace_ok (L : nat) :
  0 < n -> plane_trace base_pos n L = Ok (plane base_pos n L).
Proof.
  intros Hn. unfold plane_trace.
  rewrite (min_lo (x_nodes_nonempty Hn)), (max_hi (x_nodes_nonempty Hn)).
  rewrite (min_lo (y_nodes_nonempty Hn)), (max_hi (y_nodes_nonempty Hn)).
  reflexivity.
Qed.

(** With no node, the first plane cannot be built. *)
Lemma plane_trace_empty (L : nat) :
  n = 0 -> plane_trace base_pos n L = Raise ValueError.
Proof. intros ->. reflexivity. Qed.

Lemma plane_trace_ok_inv (L : nat) (t : Trace) :
  plane_trace base_pos n L = Ok t -> 0 < n.
Proof.
  destruct n as [|k] eqn:Hk; [|lia].
  rewrite <- Hk. rewrite (plane_trace_empty L Hk). discriminate.
Qed.

Lemma layer_body_ok (array3d : matrix3d) (L : nat) (traces : list Trace) :
  0 < n ->
  L < List.length array3d ->
  covers n (nth L array3d []) = true ->
  layer_body base_pos color_map n array3d L traces
  = Ok (traces ++ layer_block base_pos color_map n array3d L)%list.
Proof.
  intros Hn HL Hc. unfold layer_body.
  rewrite (index_nth array3d [] HL). simpl.
  rewrite intra_layer_edges_ok by exact Hc. simpl.
  rewrite (plane_trace_ok L Hn). simpl.
  unfold layer_block. f_equal.
  rewrite <- !app_assoc. reflexivity.
Qed.

Lemma inter_layer_edges_eq (num_layers : nat) (traces : list Trace) :
  inter_layer_edges base_pos n num_layers traces
  = (traces ++ inter_block base_pos n num_layers)%list.
Proof.
  unfold inter_layer_edges, inter_block.
  assert (Hnode : forall node tr,
             fold_left (fun tr0 layer_index =>
                          (tr0 ++ [inter_edge base_pos node layer_index])%list)
                       (range (num_layers - 1)) tr
             = (tr ++ map (inter_edge base_pos node) (range (num_layers - 1)))%list).
  { intros node tr.
    rewrite (fold_left_append (fun l => [inter_edge base_pos node l])).
    reflexivity. }
  revert traces.
  induction (range n) as [|node l IH]; intros traces; simpl.
  - now rewrite app_nil_r.
  - rewrite Hnode, IH. now rewrite app_assoc.
Qed.

End GeometryFacts.

Lemma append_assoc (s1 s2 s3 : string) : (s1 ++ s2) ++ s3 = s1 ++ (s2 ++ s3).
Proof. induction s1 as [|c s1 IH]; simpl; [reflexivity | now rewrite IH]. Qed.

Lemma append_nil_r (s : string) : s ++ EmptyString = s.
Proof. induction s as [|c s IH]; simpl; [reflexivity | now rewrite IH]. Qed.

(** Appending piece after piece is appending the joined pieces. *)
Lemma fold_left_join {A : Type} (f : string -> A -> string) (g : A -> string)
      (xs : list A) :
  (forall s x, f s x = s ++ g x) ->
  forall s, fold_left f xs s = s ++ join (map g xs).
Proof.
  intros Hf. induction xs as [|x xs IH]; intros s; simpl.
  - now rewrite append_nil_r.
  - rewrite IH, Hf. apply append_assoc.
Qed.

(** A loop that appends one piece at each iteration appends the joined
    pieces. *)
Lemma for_in_join {A : Type} (body : A -> string -> result string)
      (g : A -> string) (xs : list A) :
  (forall x s, In x xs -> body x s = Ok (s ++ g x)) ->
  forall s, for_in xs body s = Ok (s ++ join (map g xs)).
Proof.
  intros Hbody s.
  rewrite (for_in_fold (fun s0 x => s0 ++ g x)) by (intros; now apply Hbody).
  f_equal. now apply fold_left_join.
Qed.

Lemma format_int_ok (v : Z) :
  (digits v <=? int_max_str_digits)%nat = true -> format_int v = Ok (str v).
Proof.
  intros H. unfold format_int. apply Nat.leb_le in H.
  destruct (Nat.ltb_spec int_max_str_digits (digits v)); [lia | reflexivity].
Qed.

Lemma format_int_ok_inv (v : Z) (s : string) :
  format_int v = Ok s -> (digits v <=? int_max_str_digits)%nat = true.
Proof.
  unfold format_int.
  destruct (Nat.ltb_spec int_max_str_digits (digits v)); [discriminate|].
  intros _. now apply Nat.leb_le.
Qed.

Lemma format_int_raise (v : Z) (e : exn) :
  format_int v = Raise e -> e = ValueError.
Proof.
  unfold format_int.
  destruct (int_max_str_digits <? digits v)%nat; [congruence | discriminate].
Qed.

Lemma printable_spec (array3d : matrix3d) :
  printable array3d = true <->
  forall matrix, In matrix array3d ->
  forall row, In row matrix ->
  forall v, In v row -> (digits v <=? int_max_str_digits)%nat = true.
Proof.
  unfold printable. rewrite forallb_forall. split.
  - intros H matrix Hm row Hr v Hv.
    specialize (H matrix Hm). rewrite forallb_forall in H.
    specialize (H row Hr). rewrite forallb_forall in H. now apply H.
  - intros H matrix Hm. apply forallb_forall. intros row Hr.
    apply forallb_forall. intros v Hv. now apply (H matrix Hm row Hr).
Qed.

Lemma table_cell_eq (lc : string) (v : Z) (s : string) :
  (digits v <=? int_max_str_digits)%nat = true ->
  table_cell lc v s = Ok (s ++ cell_html lc v).
Proof.
  intros Hv. unfold table_cell, cell_html. now rewrite format_int_ok.
Qed.

Lemma table_row_eq (lc : string) (row : list Z) (s : string) :
  (forall v, In v row -> (digits v <=? int_max_str_digits)%nat = true) ->
  table_row lc row s = Ok (s ++ row_html lc row).
Proof.
  intros Hrow. unfold table_row, row_html.
  rewrite (for_in_join (table_cell lc) (cell_html lc))
    by (intros; now apply table_cell_eq, Hrow).
  cbn [bind]. now rewrite !append_assoc.
Qed.

Lemma int_of_float_channel8 (c : float) :
  is_ok (int_of_float (c * 255)%float) = true ->
  int_of_float (c * 255)%float = Ok (channel8 c).
Proof.
  unfold channel8. destruct (int_of_float (c * 255)%float); [reflexivity | discriminate].
Qed.

(** Where the channels convert, line 103 gives the CSS colour of the
    tuple. *)
Lemma layer_color_css (c : rgba) :
  converts c = true -> layer_color c = Ok (css c).
Proof.
  destruct c as [[[c0 c1] c2] c3]. unfold converts, layer_color, css.
  rewrite !andb_true_iff. intros [[H0 H1] H2].
  rewrite (int_of_float_channel8 c0 H0). cbn [bind].
  rewrite (int_of_float_channel8 c1 H1). cbn [bind].
  rewrite (int_of_float_channel8 c2 H2). reflexivity.
Qed.

Lemma layer_color_ok_inv (c : rgba) (s : string) :
  layer_color c = Ok s -> converts c = true.
Proof.
  destruct c as [[[c0 c1] c2] c3]. unfold converts, layer_color.
  destruct (int_of_float (c0 * 255)%float); simpl; [|discriminate].
  destruct (int_of_float (c1 * 255)%float); simpl; [|discriminate].
  destruct (int_of_float (c2 * 255)%float); simpl; [reflexivity | discriminate].
Qed.

Lemma in_enumerate {A : Type} (l : list A) (i : nat) (x : A) :
  nth_error l i = Some x -> In (i, x) (enumerate l).
Proof.
  unfold enumerate.
  assert (H : forall (l0 : list A) k j,
             nth_error l0 j = Some x ->
             In (k + j, x) (combine (seq k (List.length l0)) l0)).
  { induction l0 as [|a l0 IH]; intros k [|j] Hj; simpl in *; try discriminate.
    - inversion Hj. left. now rewrite Nat.add_0_r.
    - right. replace (k + S j) with (S k + j) by lia. now apply IH. }
  intros Hx. exact (H l 0 i Hx).
Qed.

Lemma enumerate_in {A : Type} (l : list A) (i : nat) (x : A) :
  In (i, x) (enumerate l) -> i < List.length l /\ nth_error l i = Some x.
Proof.
  unfold enumerate.
  assert (H : forall (l0 : list A) k,
             In (i, x) (combine (seq k (List.length l0)) l0) ->
             k <= i < k + List.length l0 /\ nth_error l0 (i - k) = Some x).
  { induction l0 as [|a l0 IH]; intros k; simpl; [contradiction|].
    intros [Heq|Hin].
    - inversion Heq; subst. rewrite Nat.sub_diag. split; [lia | reflexivity].
    - apply IH in Hin. destruct Hin as [Hb Hn]. split; [lia|].
      replace (i - k) with (S (i - S k)) by lia. exact Hn. }
  intros Hin. destruct (H l 0 Hin) as [Hb Hn].
  rewrite Nat.sub_0_r in Hn. split; [lia | exact Hn].
Qed.

Lemma accepts_spec (array3d : matrix3d) :
  accepts array3d = true <->
  array3d <> [] /\ 0 < node_count array3d /\
  forall L, L < List.length array3d ->
            covers (node_count array3d) (nth L array3d []) = true.
Proof.
  unfold accepts. destruct array3d as [|first rest] eqn:Ha.
  - split; [discriminate | intros [H _]; congruence].
  - rewrite <- Ha. rewrite andb_true_iff, Nat.ltb_lt, forallb_forall. split.
    + intros [Hn Hall]. split; [congruence|]. split; [exact Hn|].
      intros L HL. apply Hall. now apply nth_In.
    + intros (_ & Hn & Hall). split; [exact Hn|].
      intros m Hm. destruct (In_nth _ _ [] Hm) as (L & HL & <-). now apply Hall.
Qed.

Lemma valid_spec (array3d : matrix3d) :
  valid array3d = true <->
  array3d <> [] /\ 0 < node_count array3d /\
  forall L, L < List.length array3d ->
            square (node_count array3d) (nth L array3d []) = true.
Proof.
  unfold valid. destruct array3d as [|first rest] eqn:Ha.
  - split; [discriminate | intros [H _]; congruence].
  - rewrite <- Ha. rewrite andb_true_iff, Nat.ltb_lt, forallb_forall. split.
    + intros [Hn Hall]. split; [congruence|]. split; [exact Hn|].
      intros L HL. apply Hall. now apply nth_In.
    + intros (_ & Hn & Hall). split; [exact Hn|].
      intros m Hm. destruct (In_nth _ _ [] Hm) as (L & HL & <-). now apply Hall.
Qed.

Lemma square_spec (n : nat) (matrix : list (list Z)) :
  square n matrix = true <->
  List.length matrix = n /\ forall row, In row matrix -> List.length row = n.
Proof.
  unfold square. rewrite andb_true_iff, Nat.eqb_eq, forallb_forall.
  split; intros [H1 H2]; (split; [exact H1|]); intros row Hr;
    specialize (H2 row Hr); now apply Nat.eqb_eq.
Qed.

Lemma square_covers (n : nat) (matrix : list (list Z)) :
  square n matrix = true -> covers n matrix = true.
Proof.
  intros H. apply square_spec in H. destruct H as [Hlen Hrows].
  apply covers_spec. split; [lia|].
  intros i Hi. rewrite (Hrows (nth i matrix [])); [lia|]. apply nth_In. lia.
Qed.

(** A valid multiplex graph is one the script gets through. *)
Lemma valid_accepts (array3d : matrix3d) :
  valid array3d = true -> accepts array3d = true.
Proof.
  intros H. apply valid_spec in H. destruct H as (Hne & Hn & Hall).
  apply accepts_spec. repeat split; try assumption.
  intros L HL. apply square_covers. now apply Hall.
Qed.

Section ScriptFacts.

Variable spring_layout : nat -> Z -> nat -> float * float.
Variable get_cmap : string -> nat -> nat -> rgba.
Variable to_html : Figure -> string.

(** The scene of an input the script gets through. *)
Lemma build_traces_accepts (array3d : matrix3d) :
  accepts array3d = true ->
  build_traces spring_layout get_cmap array3d
  = Ok (expected_traces spring_layout get_cmap array3d).
Proof.
  intros Hacc. apply accepts_spec in Hacc. destruct Hacc as (Hne & Hn & Hall).
  destruct array3d as [|first rest] eqn:Ha; [congruence|].
  rewrite <- Ha in *. unfold build_traces.
  replace (index array3d 0) with (Ok first) by (rewrite Ha; reflexivity).
  cbn [bind].
  replace (List.length first) with (node_count array3d) by (rewrite Ha; reflexivity).
  rewrite (for_in_fold
             (fun tr L =>
                tr ++ layer_block (spring_layout (node_count array3d) 42%Z)
                                  (get_cmap "tab10" (List.length array3d))
                                  (node_count array3d) array3d L)%list).
  - cbn [bind]. rewrite fold_left_append, inter_layer_edges_eq. reflexivity.
  - intros L tr HL. apply in_range in HL.
    apply layer_body_ok; [exact Hn | exact HL | now apply Hall].
Qed.

Lemma intra_layer_edges_ok_inv (base_pos : nat -> float * float)
      (color_map : nat -> rgba) (n L : nat) (matrix : list (list Z))
      (traces traces' : list Trace) :
  0 < n ->
  intra_layer_edges base_pos color_map n L matrix traces = Ok traces' ->
  covers n matrix = true.
Proof.
  intros Hn Hrun. unfold intra_layer_edges in Hrun.
  assert (Hcell : forall i j, i < n -> j < n ->
                    i < List.length matrix /\ j < List.length (nth i matrix [])).
  { intros i j Hi Hj.
    destruct (for_in_ok_inv _ _ _ Hrun i (proj2 (in_range n i) Hi)) as (s1 & s2 & Hrow).
    destruct (for_in_ok_inv _ _ _ Hrow j (proj2 (in_range n j) Hj)) as (s3 & s4 & Hbody).
    destruct (index matrix i) as [row|e] eqn:Hi'; simpl in Hbody; [|discriminate].
    destruct (index row j) as [v|e] eqn:Hj'; simpl in Hbody; [|discriminate].
    pose proof (index_ok_inv _ _ Hi') as Hlt.
    rewrite (index_nth matrix [] Hlt) in Hi'. inversion Hi'; subst row.
    split; [exact Hlt | exact (index_ok_inv _ _ Hj')]. }
  apply covers_spec. split.
  - destruct (Hcell (n - 1) 0) as [H _]; lia.
  - intros i Hi. destruct (Hcell i (n - 1)) as [_ H]; lia.
Qed.

Lemma layer_body_ok_inv (base_pos : nat -> float * float)
      (color_map : nat -> rgba) (n : nat) (array3d : matrix3d) (L : nat)
      (traces traces' : list Trace) :
  layer_body base_pos color_map n array3d L traces = Ok traces' ->
  0 < n /\ covers n (nth L array3d []) = true.
Proof.
  unfold layer_body. intros Hrun.
  destruct (index array3d L) as [matrix|e] eqn:Hm; simpl in Hrun; [|discriminate].
  destruct (intra_layer_edges base_pos color_map n L matrix
              (traces ++ [node_trace base_pos n L])) as [tr|e] eqn:He;
    simpl in Hrun; [|discriminate].
  destruct (plane_trace base_pos n L) as [p|e] eqn:Hp; simpl in Hrun; [|discriminate].
  pose proof (plane_trace_ok_inv _ _ _ Hp) as Hn.
  split; [exact Hn|].
  pose proof (index_ok_inv _ _ Hm) as Hlt.
  rewrite (index_nth array3d [] Hlt) in Hm. inversion Hm; subst matrix.
  eapply intra_layer_edges_ok_inv; eauto.
Qed.

(** The script gets through the inputs of [accepts] only. *)
Lemma build_traces_ok_inv (array3d : matrix3d) (traces : list Trace) :
  build_traces spring_layout get_cmap array3d = Ok traces ->
  accepts array3d = true.
Proof.
  intros Hrun. destruct array3d as [|first rest] eqn:Ha; [discriminate|].
  rewrite <- Ha in *. unfold build_traces in Hrun.
  replace (index array3d 0) with (Ok first) in Hrun by (rewrite Ha; reflexivity).
  cbn [bind] in Hrun.
  replace (List.length first) with (node_count array3d) in Hrun
    by (rewrite Ha; reflexivity).
  destruct (for_in (range (List.length array3d))
                   (layer_body (spring_layout (node_count array3d) 42%Z)
                               (get_cmap "tab10" (List.length array3d))
                               (node_count array3d) array3d) [])
    as [tr|e] eqn:Hloop; simpl in Hrun; [|discriminate].
  assert (Hlayer : forall L, L < List.length array3d ->
             0 < node_count array3d
             /\ covers (node_count array3d) (nth L array3d []) = true).
  { intros L HL.
    destruct (for_in_ok_inv _ _ _ Hloop L (proj2 (in_range _ L) HL)) as (s1 & s2 & Hb).
    eapply layer_body_ok_inv; eauto. }
  apply accepts_spec. split; [congruence|]. split.
  - apply (Hlayer 0). rewrite Ha. simpl. lia.
  - intros L HL. now apply Hlayer.
Qed.

(** The exception that ends the geometry work, by kind of input. *)
Lemma build_traces_raise (array3d : matrix3d) (e : exn) :
  build_traces spring_layout get_cmap array3d = Raise e ->
  (array3d = [] /\ e = IndexError)
  \/ (array3d <> [] /\ node_count array3d = 0 /\ e = ValueError)
  \/ (array3d <> [] /\ 0 < node_count array3d /\ e = IndexError).
Proof.
  intros Hrun. destruct array3d as [|first rest] eqn:Ha.
  - left. split; [reflexivity|]. cbv in Hrun. congruence.
  - right. rewrite <- Ha in *. unfold build_traces in Hrun.
    replace (index array3d 0) with (Ok first) in Hrun by (rewrite Ha; reflexivity).
    cbn [bind] in Hrun.
    replace (List.length first) with (node_count array3d) in Hrun
      by (rewrite Ha; reflexivity).
    destruct (for_in (range (List.length array3d))
                     (layer_body (spring_layout (node_count array3d) 42%Z)
                                 (get_cmap "tab10" (List.length array3d))
                                 (node_count array3d) array3d) [])
      as [tr|e'] eqn:Hloop; simpl in Hrun; [discriminate|].
    inversion Hrun; subst e'. clear Hrun.
    destruct (for_in_raise_inv _ _ _ Hloop) as (L & s1 & HL & Hb).
    unfold layer_body in Hb.
    destruct (index array3d L) as [matrix|e1] eqn:Hm; simpl in Hb.
    + destruct (intra_layer_edges (spring_layout (node_count array3d) 42%Z)
                  (get_cmap "tab10" (List.length array3d)) (node_count array3d)
                  L matrix (s1 ++ [node_trace (spring_layout (node_count array3d) 42%Z)
                                              (node_count array3d) L]))
        as [tr|e2] eqn:He; simpl in Hb.
      * destruct (Nat.eq_dec (node_count array3d) 0) as [H0|H0].
        -- left. split; [congruence|]. split; [exact H0|].
           rewrite (plane_trace_empty _ L H0) in Hb. simpl in Hb. congruence.
        -- rewrite plane_trace_ok in Hb by lia. simpl in Hb. discriminate.
      * inversion Hb; subst e2. clear Hb.
        unfold intra_layer_edges in He.
        destruct (for_in_raise_inv _ _ _ He) as (i & s2 & Hi & Hrow).
        destruct (for_in_raise_inv _ _ _ Hrow) as (j & s3 & Hj & Hcell).
        right. split; [congruence|]. split; [apply in_range in Hi; lia|].
        destruct (index matrix i) as [row|e3] eqn:Hri; simpl in Hcell.
        -- destruct (index row j) as [v|e4] eqn:Hcj; simpl in Hcell.
           ++ destruct (negb (v =? 0)%Z); discriminate.
           ++ inversion Hcell; subst. eapply index_raise_inv; eauto.
        -- inversion Hcell; subst. eapply index_raise_inv; eauto.
    + inversion Hb; subst e1. clear Hb.
      pose proof (index_raise_inv _ _ Hm) as ->.
      destruct (Nat.eq_dec (node_count array3d) 0) as [H0|H0].
      * exfalso. apply in_range in HL.
        unfold index in Hm. destruct (nth_error array3d L) eqn:Hn; [discriminate|].
        apply nth_error_None in Hn. lia.
      * right. split; [congruence|]. split; [lia | reflexivity].
Qed.

(** The table of an input whose layer colours convert and whose entries
    print. *)
Lemma build_table_ok (array3d : matrix3d) :
  palette_ok get_cmap array3d = true ->
  printable array3d = true ->
  build_table get_cmap array3d = Ok (expected_table get_cmap array3d).
Proof.
  intros Hpal Hpr. unfold build_table, expected_table.
  set (cm := get_cmap "tab10" (List.length array3d)).
  apply for_in_join.
  intros [L matrix] s Hin. apply enumerate_in in Hin. destruct Hin as [HL Hm].
  unfold palette_ok in Hpal. rewrite forallb_forall in Hpal.
  specialize (Hpal L (proj2 (in_range _ L) HL)). fold cm in Hpal.
  unfold table_body, table_block. simpl fst; simpl snd.
  rewrite (layer_color_css _ Hpal). cbn [bind].
  rewrite (for_in_join (table_row (css (cm L))) (row_html (css (cm L)))).
  - cbn [bind]. unfold layer_html, heading_html. now rewrite !append_assoc.
  - intros row s0 Hr. apply table_row_eq. intros v Hv.
    refine (proj1 (printable_spec array3d) Hpr matrix _ row Hr v Hv).
    eapply nth_error_In; eauto.
Qed.

Lemma build_table_ok_inv (array3d : matrix3d) (html : string) :
  build_table get_cmap array3d = Ok html ->
  palette_ok get_cmap array3d = true /\ printable array3d = true.
Proof.
  unfold build_table. intros Hrun.
  assert (Hlayer : forall L matrix, nth_error array3d L = Some matrix ->
            converts (get_cmap "tab10" (List.length array3d) L) = true
            /\ forall row, In row matrix -> forall v, In v row ->
                 (digits v <=? int_max_str_digits)%nat = true).
  { intros L matrix Hm.
    destruct (for_in_ok_inv _ _ _ Hrun _ (in_enumerate _ _ Hm)) as (s1 & s2 & Hb).
    unfold table_body in Hb.
    destruct (layer_color (get_cmap "tab10" (List.length array3d) L))
      as [lc|e] eqn:Hc; [|discriminate].
    split; [eapply layer_color_ok_inv; eauto|].
    cbn [bind] in Hb. intros row Hr v Hv.
    match type of Hb with
    | bind (for_in matrix ?body ?s0) _ = _ =>
        destruct (for_in matrix body s0) as [t|e] eqn:Hrows; [|discriminate]
    end.
    destruct (for_in_ok_inv _ _ _ Hrows _ Hr) as (s3 & s4 & Hrow).
    unfold table_row in Hrow.
    match type of Hrow with
    | bind (for_in row ?body ?s0) _ = _ =>
        destruct (for_in row body s0) as [t'|e] eqn:Hcells; [|discriminate]
    end.
    destruct (for_in_ok_inv _ _ _ Hcells _ Hv) as (s5 & s6 & Hcell).
    unfold table_cell in Hcell.
    destruct (format_int v) as [text|e] eqn:Hf; [|discriminate].
    eapply format_int_ok_inv; eauto. }
  split.
  - unfold palette_ok. apply forallb_forall. intros L HL. apply in_range in HL.
    destruct (nth_error array3d L) as [matrix|] eqn:Hm;
      [|apply nth_error_None in Hm; lia].
    now apply (Hlayer L matrix).
  - apply printable_spec. intros matrix Hm row Hr v Hv.
    destruct (In_nth_error _ _ Hm) as (L & HL).
    now apply (proj2 (Hlayer L matrix HL) row Hr v Hv).
Qed.

End ScriptFacts.

(* ================================================================== *)
(** ** The primitives, one kind at a time *)
(* ================================================================== *)

Lemma z_offset_eqb (L L' : nat) : Qeq_bool (z_offset L) (z_offset L') = (L =? L')%nat.
Proof.
  destruct (Nat.eqb_spec L L') as [->|Hne].
  - apply Qeq_bool_iff. reflexivity.
  - destruct (Qeq_bool (z_offset L) (z_offset L')) eqn:H; [|reflexivity].
    apply Qeq_bool_eq in H. unfold z_offset, Qeq in H. simpl in H. lia.
Qed.

Lemma at_depth_flat (t : Trace) (z z0 : Q) (A : Type) (l : list A) :
  l <> [] -> trace_z t = map (fun _ => z0) l -> at_depth z t = Qeq_bool z z0.
Proof.
  intros Hne Hz. unfold at_depth. rewrite Hz.
  destruct l as [|a l]; [congruence|]. simpl.
  destruct (Qeq_bool z z0) eqn:Hq; simpl; [|reflexivity].
  clear Hne Hz. induction l as [|b l IH]; simpl; [reflexivity|].
  now rewrite Hq.
Qed.

Section Primitives.

Variable base_pos : nat -> float * float.
Variable color_map : nat -> rgba.
Variable n : nat.

Lemma edge_trace_eq (L i j : nat) :
  edge_trace base_pos color_map L i j
  = TScatter3d
      {| s_x := [fst (base_pos i); fst (base_pos j)];
         s_y := [snd (base_pos i); snd (base_pos j)];
         s_z := [z_offset L; z_offset L];
         s_mode := "lines";
         s_marker := None;
         s_line := Some {| line_color := ColorTuple (color_map L);
                           line_width := 4;
                           line_dash := None |};
         s_text := None;
         s_textposition := None;
         s_name := "Layer " ++ str_nat (L + 1) ++ " Edge" |}.
Proof.
  unfold edge_trace. destruct (base_pos i), (base_pos j). reflexivity.
Qed.

Lemma inter_edge_eq (k L : nat) :
  inter_edge base_pos k L
  = TScatter3d
      {| s_x := [fst (base_pos k); fst (base_pos k)];
         s_y := [snd (base_pos k); snd (base_pos k)];
         s_z := [z_offset L; z_offset (L + 1)];
         s_mode := "lines";
         s_marker := None;
         s_line := Some {| line_color := ColorStr "gray";
                           line_width := 2;
                           line_dash := Some "dot" |};
         s_text := None;
         s_textposition := None;
         s_name := "Inter-layer Node " ++ str_nat k |}.
Proof.
  unfold inter_edge. destruct (base_pos k). reflexivity.
Qed.

Lemma node_trace_depth (L L' : nat) :
  0 < n -> at_depth (z_offset L) (node_trace base_pos n L') = (L =? L')%nat.
Proof.
  intros Hn. rewrite <- z_offset_eqb.
  apply at_depth_flat with (l := range n); [|reflexivity].
  intros H. apply (f_equal (@List.length _)) in H.
  rewrite length_range in H. simpl in H. lia.
Qed.

Lemma edge_trace_depth (L L' i j : nat) :
  at_depth (z_offset L) (edge_trace base_pos color_map L' i j) = (L =? L')%nat.
Proof.
  rewrite <- z_offset_eqb, edge_trace_eq.
  apply at_depth_flat with (l := [0; 0]); [discriminate | reflexivity].
Qed.

Lemma plane_depth (L L' : nat) :
  at_depth (z_offset L) (plane base_pos n L') = (L =? L')%nat.
Proof.
  rewrite <- z_offset_eqb.
  apply at_depth_flat with (l := [0; 0; 0; 0]); [discriminate | reflexivity].
Qed.

(** The kind of each primitive. *)
Lemma node_trace_kind (L : nat) :
  is_node_trace (node_trace base_pos n L) = true
  /\ is_intra_edge (node_trace base_pos n L) = false
  /\ is_inter_edge (node_trace base_pos n L) = false
  /\ is_plane (node_trace base_pos n L) = false.
Proof. repeat split. Qed.

Lemma edge_trace_kind (L i j : nat) :
  is_node_trace (edge_trace base_pos color_map L i j) = false
  /\ is_intra_edge (edge_trace base_pos color_map L i j) = true
  /\ is_inter_edge (edge_trace base_pos color_map L i j) = false
  /\ is_plane (edge_trace base_pos color_map L i j) = false.
Proof. rewrite edge_trace_eq. repeat split. Qed.

Lemma plane_kind (L : nat) :
  is_node_trace (plane base_pos n L) = false
  /\ is_intra_edge (plane base_pos n L) = false
  /\ is_inter_edge (plane base_pos n L) = false
  /\ is_plane (plane base_pos n L) = true.
Proof. repeat split. Qed.

Lemma inter_edge_kind (k L : nat) :
  is_node_trace (inter_edge base_pos k L) = false
  /\ is_intra_edge (inter_edge base_pos k L) = false
  /\ is_inter_edge (inter_edge base_pos k L) = true
  /\ is_plane (inter_edge base_pos k L) = false.
Proof. rewrite inter_edge_eq. repeat split. Qed.

End Primitives.

Lemma in_nonzero_pairs (n : nat) (matrix : list (list Z)) (i j : nat) :
  In (i, j) (nonzero_pairs n matrix) <->
  i < n /\ j < n /\ entry matrix i j <> 0%Z.
Proof.
  unfold nonzero_pairs. rewrite filter_In, in_prod_iff, !in_range. simpl.
  unfold nonzero. rewrite negb_true_iff, Z.eqb_neq. tauto.
Qed.

(** Every primitive of the scene is one of the four kinds, with its indices
    in range. *)
Lemma in_expected_traces (spring_layout : nat -> Z -> nat -> float * float)
      (get_cmap : string -> nat -> nat -> rgba) (array3d : matrix3d) (t : Trace) :
  let n := node_count array3d in
  let N := List.length array3d in
  let base_pos := spring_layout n 42%Z in
  let color_map := get_cmap "tab10" N in
  In t (expected_traces spring_layout get_cmap array3d) <->
  (exists L, L < N /\ t = node_trace base_pos n L)
  \/ (exists L i j, L < N /\ In (i, j) (nonzero_pairs n (nth L array3d []))
                    /\ t = edge_trace base_pos color_map L i j)
  \/ (exists L, L < N /\ t = plane base_pos n L)
  \/ (exists k L, k < n /\ L < N - 1 /\ t = inter_edge base_pos k L).
Proof.
  intros n N base_pos color_map. unfold expected_traces.
  fold n N base_pos color_map.
  rewrite in_app_iff, in_flat_map. unfold inter_block. rewrite in_flat_map.
  split.
  - intros [(L & HL & Hin)|(k & Hk & Hin)].
    + apply in_range in HL. unfold layer_block in Hin.
      destruct Hin as [<-|Hin]; [left; eauto|].
      apply in_app_iff in Hin. destruct Hin as [Hin|[<-|[]]].
      * apply in_map_iff in Hin. destruct Hin as ([i j] & <- & Hij).
        right; left. exists L, i, j. auto.
      * right; right; left. eauto.
    + apply in_range in Hk. apply in_map_iff in Hin.
      destruct Hin as (L & <- & HL). apply in_range in HL.
      right; right; right. eauto.
  - intros [(L & HL & ->)|[(L & i & j & HL & Hij & ->)|[(L & HL & ->)|(k & L & Hk & HL & ->)]]].
    + left. exists L. split; [now apply in_range|]. left. reflexivity.
    + left. exists L. split; [now apply in_range|]. right.
      apply in_app_iff. left. apply in_map_iff. exists (i, j). auto.
    + left. exists L. split; [now apply in_range|]. right.
      apply in_app_iff. right. left. reflexivity.
    + right. exists k. split; [now apply in_range|].
      apply in_map_iff. exists L. split; [reflexivity | now apply in_range].
Qed.

(* ================================================================== *)
(** ** Counting the primitives of the scene *)
(* ================================================================== *)

Lemma count_cons {A : Type} (p : A -> bool) (x : A) (l : list A) :
  count p (x :: l) = (if p x then 1 else 0) + count p l.
Proof. unfold count. simpl. destruct (p x); reflexivity. Qed.

Lemma count_map {A B : Type} (p : B -> bool) (f : A -> B) (l : list A) :
  count p (map f l) = count (fun x => p (f x)) l.
Proof.
  unfold count. induction l as [|x l IH]; simpl; [reflexivity|].
  destruct (p (f x)); simpl; now rewrite IH.
Qed.

Lemma count_filter {A : Type} (p q : A -> bool) (l : list A) :
  count p (filter q l) = count (fun x => p x && q x) l.
Proof.
  unfold count. induction l as [|x l IH]; simpl; [reflexivity|].
  destruct (q x) eqn:Hq; simpl; destruct (p x) eqn:Hp; simpl; congruence.
Qed.

Lemma filter_none {A : Type} (p : A -> bool) (l : list A) :
  (forall x, In x l -> p x = false) -> filter p l = [].
Proof.
  induction l as [|x l IH]; simpl; intros H; [reflexivity|].
  rewrite (H x) by (left; reflexivity). apply IH. intros y Hy. apply H. right; exact Hy.
Qed.

Lemma filter_all {A : Type} (p : A -> bool) (l : list A) :
  (forall x, In x l -> p x = true) -> filter p l = l.
Proof.
  induction l as [|x l IH]; simpl; intros H; [reflexivity|].
  rewrite (H x) by (left; reflexivity). f_equal. apply IH.
  intros y Hy. apply H. right; exact Hy.
Qed.

Lemma flat_map_nil {A B : Type} (g : A -> list B) (l : list A) :
  (forall x, In x l -> g x = []) -> flat_map g l = [].
Proof.
  induction l as [|x l IH]; simpl; intros H; [reflexivity|].
  rewrite (H x) by (left; reflexivity). apply IH. intros y Hy. apply H. right; exact Hy.
Qed.

(** Only the block of [L] passes the filter. *)
Lemma filter_flat_map_only {B : Type} (p : B -> bool) (g : nat -> list B)
      (N L : nat) :
  L < N ->
  (forall L', L' < N -> L' <> L -> filter p (g L') = []) ->
  filter p (flat_map g (range N)) = filter p (g L).
Proof.
  intros HL Hother. rewrite filter_flat_map. unfold range.
  replace N with (L + (1 + (N - L - 1))) by lia.
  rewrite !seq_app, !flat_map_app. simpl. rewrite app_nil_r.
  rewrite (flat_map_nil (fun x => filter p (g x)) (seq 0 L)).
  - rewrite (flat_map_nil (fun x => filter p (g x)) (seq (L + 1) (N - L - 1))).
    + now rewrite app_nil_r.
    + intros x Hx. apply in_seq in Hx. apply Hother; lia.
  - intros x Hx. apply in_seq in Hx. apply Hother; lia.
Qed.

Section Blocks.

Variable base_pos : nat -> float * float.
Variable color_map : nat -> rgba.
Variable n : nat.
Variable array3d : matrix3d.

Local Abbreviation block := (layer_block base_pos color_map n array3d).
Local Abbreviation edges L :=
  (map (fun ij => edge_trace base_pos color_map L (fst ij) (snd ij))
       (nonzero_pairs n (nth L array3d []))).

Lemma block_eq (L : nat) :
  block L = node_trace base_pos n L :: edges L ++ [plane base_pos n L].
Proof. reflexivity. Qed.

Lemma edges_count (p : Trace -> bool) (L : nat) (b : bool) :
  (forall i j, p (edge_trace base_pos color_map L i j) = b) ->
  count p (edges L) = if b then List.length (edges L) else 0.
Proof.
  intros Hp. destruct b.
  - apply count_all. intros t Ht. apply in_map_iff in Ht.
    destruct Ht as ([i j] & <- & _). apply Hp.
  - apply count_none. intros t Ht. apply in_map_iff in Ht.
    destruct Ht as ([i j] & <- & _). apply Hp.
Qed.

Lemma block_node_traces (L : nat) : count is_node_trace (block L) = 1.
Proof.
  rewrite block_eq, count_cons, count_app.
  rewrite (@edges_count is_node_trace L false)
    by (intros; apply edge_trace_kind).
  reflexivity.
Qed.

Lemma block_planes (L : nat) : count is_plane (block L) = 1.
Proof.
  rewrite block_eq, count_cons, count_app.
  rewrite (@edges_count is_plane L false) by (intros; apply edge_trace_kind).
  reflexivity.
Qed.

Lemma block_inter_edges (L : nat) : count is_inter_edge (block L) = 0.
Proof.
  rewrite block_eq, count_cons, count_app.
  rewrite (@edges_count is_inter_edge L false) by (intros; apply edge_trace_kind).
  reflexivity.
Qed.

Lemma block_node_trace_at (L L' : nat) :
  0 < n ->
  count (node_trace_at L) (block L') = if (L =? L')%nat then 1 else 0.
Proof.
  intros Hn. rewrite block_eq, count_cons, count_app.
  rewrite (@edges_count (node_trace_at L) L' false).
  - unfold node_trace_at at 1. rewrite node_trace_depth by exact Hn.
    cbn. destruct (L =? L')%nat; reflexivity.
  - intros i j. unfold node_trace_at.
    now rewrite (proj1 (edge_trace_kind base_pos color_map L' i j)).
Qed.

Lemma block_plane_at (L L' : nat) :
  count (plane_at L) (block L') = if (L =? L')%nat then 1 else 0.
Proof.
  rewrite block_eq, count_cons, count_app.
  rewrite (@edges_count (plane_at L) L' false).
  - unfold count, plane_at. simpl filter.
    replace (is_plane (plane base_pos n L')) with true by reflexivity.
    rewrite plane_depth. cbn. destruct (L =? L')%nat; reflexivity.
  - intros i j. unfold plane_at.
    now rewrite (proj2 (proj2 (proj2 (edge_trace_kind base_pos color_map L' i j)))).
Qed.

Lemma block_intra_edges (L L' : nat) :
  filter (intra_edge_at L) (block L') = if (L =? L')%nat then edges L' else [].
Proof.
  rewrite block_eq. simpl filter. rewrite filter_app. simpl filter.
  replace (intra_edge_at L (node_trace base_pos n L')) with false by reflexivity.
  replace (intra_edge_at L (plane base_pos n L')) with false by reflexivity.
  rewrite app_nil_r.
  assert (Hp : forall i j,
             intra_edge_at L (edge_trace base_pos color_map L' i j) = (L =? L')%nat).
  { intros i j. unfold intra_edge_at.
    rewrite (proj1 (proj2 (edge_trace_kind base_pos color_map L' i j))).
    now rewrite edge_trace_depth. }
  destruct (L =? L')%nat.
  - apply filter_all. intros t Ht. apply in_map_iff in Ht.
    destruct Ht as ([i j] & <- & _). apply Hp.
  - apply filter_none. intros t Ht. apply in_map_iff in Ht.
    destruct Ht as ([i j] & <- & _). apply Hp.
Qed.

Lemma inter_block_count (p : Trace -> bool) (num_layers : nat) (b : bool) :
  (forall k L, p (inter_edge base_pos k L) = b) ->
  count p (inter_block base_pos n num_layers)
  = if b then n * (num_layers - 1) else 0.
Proof.
  intros Hp. unfold inter_block. destruct b.
  - rewrite (@count_flat_map_const _ _ p _ (num_layers - 1)).
    + now rewrite length_range.
    + intros k _. rewrite count_all.
      * now rewrite length_map, length_range.
      * intros t Ht. apply in_map_iff in Ht. destruct Ht as (L & <- & _). apply Hp.
  - apply count_none. intros t Ht. apply in_flat_map in Ht.
    destruct Ht as (k & _ & Ht). apply in_map_iff in Ht.
    destruct Ht as (L & <- & _). apply Hp.
Qed.

End Blocks.

(* ================================================================== *)
(** ** Matrices *)
(* ================================================================== *)

Lemma map_nth_range {A : Type} (l : list A) (d : A) :
  map (fun i => nth i l d) (range (List.length l)) = l.
Proof.
  unfold range. induction l as [|a l IH]; simpl; [reflexivity|].
  f_equal. rewrite <- seq_shift, map_map. exact IH.
Qed.

(** Scanning a square matrix over [range(n) x range(n)] reads its entries
    row after row. *)
Lemma square_entries (n : nat) (matrix : list (list Z)) :
  square n matrix = true ->
  map (fun ij => entry matrix (fst ij) (snd ij)) (list_prod (range n) (range n))
  = List.concat matrix.
Proof.
  intros Hsq. apply square_spec in Hsq. destruct Hsq as [Hlen Hrows].
  rewrite list_prod_flat_map, map_flat_map, flat_map_concat_map. f_equal.
  transitivity (map (fun i => nth i matrix []) (range n)).
  - apply map_ext_in. intros i Hi. apply in_range in Hi.
    rewrite map_map. simpl. unfold entry.
    assert (Hrow : List.length (nth i matrix []) = n)
      by (apply Hrows, nth_In; lia).
    rewrite <- Hrow at 1. apply map_nth_range.
  - rewrite <- Hlen. apply map_nth_range.
Qed.

Lemma nonzero_pairs_length (n : nat) (matrix : list (list Z)) :
  square n matrix = true ->
  List.length (nonzero_pairs n matrix) = count_nonzero matrix.
Proof.
  intros Hsq. unfold count_nonzero. rewrite <- (@square_entries n matrix Hsq).
  rewrite count_map. reflexivity.
Qed.

Lemma all_zero_entry (matrix : list (list Z)) (i j : nat) :
  all_zero matrix = true -> entry matrix i j = 0%Z.
Proof.
  unfold all_zero, entry. rewrite forallb_forall. intros Hz.
  destruct (nth_in_or_default i matrix []) as [Hin | ->].
  - specialize (Hz _ Hin). rewrite forallb_forall in Hz.
    destruct (nth_in_or_default j (nth i matrix []) 0%Z) as [Hv | ->].
    + now apply Z.eqb_eq, Hz.
    + reflexivity.
  - now destruct j.
Qed.

Lemma all_zero_no_pairs (n : nat) (matrix : list (list Z)) :
  all_zero matrix = true -> nonzero_pairs n matrix = [].
Proof.
  intros Hz. unfold nonzero_pairs. apply filter_none.
  intros [i j] _. simpl. unfold nonzero. now rewrite all_zero_entry.
Qed.

(** A pair with a non-zero entry is listed once. *)
Lemma nonzero_pair_once (n : nat) (matrix : list (list Z)) (i j : nat) :
  i < n -> j < n -> entry matrix i j <> 0%Z ->
  count (is_pair i j) (nonzero_pairs n matrix) = 1.
Proof.
  intros Hi Hj Hnz. unfold nonzero_pairs.
  rewrite count_filter, list_prod_flat_map.
  set (q := fun ij : nat * nat =>
              is_pair i j ij && nonzero (entry matrix (fst ij) (snd ij))).
  rewrite (@count_flat_map_only _ q _ n i Hi).
  - rewrite count_map.
    replace (range n) with (flat_map (fun y => [y]) (range n))
      by (induction (range n) as [|y l IH]; simpl; congruence).
    rewrite (@count_flat_map_only _ (fun y => q (i, y)) _ n j Hj).
    + unfold count, q, is_pair, nonzero. simpl.
      rewrite !Nat.eqb_refl. simpl.
      destruct (entry matrix i j =? 0)%Z eqn:He; [|reflexivity].
      apply Z.eqb_eq in He. contradiction.
    + intros y _ Hy. unfold count, q, is_pair. simpl.
      apply Nat.eqb_neq in Hy. rewrite Hy, andb_false_r. reflexivity.
  - intros x _ Hx. apply count_none. intros ij Hin.
    apply in_map_iff in Hin. destruct Hin as (y & <- & _).
    unfold q, is_pair. simpl. apply Nat.eqb_neq in Hx. now rewrite Hx.
Qed.

(* ================================================================== *)
(** ** The scene as a whole *)
(* ================================================================== *)

Lemma count_zero_filter {A : Type} (p : A -> bool) (l : list A) :
  count p l = 0 -> filter p l = [].
Proof. unfold count. apply length_zero_iff_nil. Qed.

Section Scene.

Variable spring_layout : nat -> Z -> nat -> float * float.
Variable get_cmap : string -> nat -> nat -> rgba.
Variable array3d : matrix3d.

Local Abbreviation n := (node_count array3d).
Local Abbreviation N := (List.length array3d).
Local Abbreviation base_pos := (spring_layout (node_count array3d) 42%Z).
Local Abbreviation color_map := (get_cmap "tab10" (List.length array3d)).
Local Abbreviation scene := (expected_traces spring_layout get_cmap array3d).

Lemma scene_intra_edges (L : nat) :
  L < N ->
  filter (intra_edge_at L) scene
  = map (fun ij => edge_trace base_pos color_map L (fst ij) (snd ij))
        (nonzero_pairs n (nth L array3d [])).
Proof.
  intros HL. unfold expected_traces. rewrite filter_app.
  rewrite (@filter_flat_map_only _ (intra_edge_at L) _ N L HL).
  - rewrite block_intra_edges, Nat.eqb_refl.
    rewrite (@count_zero_filter _ (intra_edge_at L) (inter_block base_pos n N)).
    + apply app_nil_r.
    + apply (@inter_block_count base_pos n (intra_edge_at L) N false).
      intros k L0. unfold intra_edge_at.
      now rewrite (proj1 (proj2 (inter_edge_kind base_pos k L0))).
  - intros L' _ Hne. rewrite block_intra_edges.
    destruct (Nat.eqb_spec L L'); [congruence | reflexivity].
Qed.

Lemma scene_node_traces : count is_node_trace scene = N.
Proof.
  unfold expected_traces. rewrite count_app.
  rewrite (@count_flat_map_const _ _ is_node_trace _ 1)
    by (intros; apply block_node_traces).
  rewrite (@inter_block_count base_pos n is_node_trace N false)
    by (intros; apply inter_edge_kind).
  rewrite length_range. lia.
Qed.

Lemma scene_planes : count is_plane scene = N.
Proof.
  unfold expected_traces. rewrite count_app.
  rewrite (@count_flat_map_const _ _ is_plane _ 1)
    by (intros; apply block_planes).
  rewrite (@inter_block_count base_pos n is_plane N false)
    by (intros; apply inter_edge_kind).
  rewrite length_range. lia.
Qed.

Lemma scene_inter_edges : count is_inter_edge scene = n * (N - 1).
Proof.
  unfold expected_traces. rewrite count_app.
  rewrite (@count_flat_map_const _ _ is_inter_edge _ 0)
    by (intros; apply block_inter_edges).
  rewrite (@inter_block_count base_pos n is_inter_edge N true)
    by (intros; apply inter_edge_kind).
  lia.
Qed.

Lemma scene_node_trace_at (L : nat) :
  0 < n -> L < N -> count (node_trace_at L) scene = 1.
Proof.
  intros Hn HL. unfold expected_traces. rewrite count_app.
  rewrite (@count_flat_map_only _ (node_trace_at L) _ N L HL).
  - rewrite block_node_trace_at, Nat.eqb_refl by exact Hn.
    rewrite (@inter_block_count base_pos n (node_trace_at L) N false); [reflexivity|].
    intros k L0. unfold node_trace_at.
    now rewrite (proj1 (inter_edge_kind base_pos k L0)).
  - intros L' _ Hne. rewrite block_node_trace_at by exact Hn.
    destruct (Nat.eqb_spec L L'); [congruence | reflexivity].
Qed.

Lemma scene_plane_at (L : nat) :
  L < N -> count (plane_at L) scene = 1.
Proof.
  intros HL. unfold expected_traces. rewrite count_app.
  rewrite (@count_flat_map_only _ (plane_at L) _ N L HL).
  - rewrite block_plane_at, Nat.eqb_refl.
    rewrite (@inter_block_count base_pos n (plane_at L) N false); [reflexivity|].
    intros k L0. unfold plane_at.
    now rewrite (proj2 (proj2 (proj2 (inter_edge_kind base_pos k L0)))).
  - intros L' _ Hne. rewrite block_plane_at.
    destruct (Nat.eqb_spec L L'); [congruence | reflexivity].
Qed.

End Scene.

Lemma filter_blocks {B : Type} (p : B -> bool) (g h : nat -> list B) (N : nat) :
  (forall L, L < N -> filter p (g L) = h L) ->
  filter p (flat_map g (range N)) = flat_map h (range N).
Proof.
  intros H. rewrite filter_flat_map. apply flat_map_ext_in.
  intros L HL. apply H. now apply in_range.
Qed.

Section SceneByKind.

Variable spring_layout : nat -> Z -> nat -> float * float.
Variable get_cmap : string -> nat -> nat -> rgba.
Variable array3d : matrix3d.

Local Abbreviation n := (node_count array3d).
Local Abbreviation N := (List.length array3d).
Local Abbreviation base_pos := (spring_layout (node_count array3d) 42%Z).
Local Abbreviation color_map := (get_cmap "tab10" (List.length array3d)).
Local Abbreviation scene := (expected_traces spring_layout get_cmap array3d).
Local Abbreviation block := (layer_block base_pos color_map n array3d).

Lemma block_filter (p : Trace -> bool) (L : nat) (bn be bp : bool) :
  p (node_trace base_pos n L) = bn ->
  (forall i j, p (edge_trace base_pos color_map L i j) = be) ->
  p (plane base_pos n L) = bp ->
  filter p (block L)
  = ((if bn then [node_trace base_pos n L] else [])
     ++ (if be
         then map (fun ij => edge_trace base_pos color_map L (fst ij) (snd ij))
                  (nonzero_pairs n (nth L array3d []))
         else [])
     ++ (if bp then [plane base_pos n L] else []))%list.
Proof.
  intros Hn He Hp. unfold layer_block.
  change (node_trace base_pos n L
          :: map (fun ij => edge_trace base_pos color_map L (fst ij) (snd ij))
                 (nonzero_pairs n (nth L array3d []))
          ++ [plane base_pos n L])%list
    with ([node_trace base_pos n L]
          ++ map (fun ij => edge_trace base_pos color_map L (fst ij) (snd ij))
                 (nonzero_pairs n (nth L array3d []))
          ++ [plane base_pos n L])%list.
  rewrite !filter_app. f_equal; [|f_equal].
  - simpl. now rewrite Hn.
  - destruct be.
    + apply filter_all. intros t Ht. apply in_map_iff in Ht.
      destruct Ht as ([i j] & <- & _). apply He.
    + apply filter_none. intros t Ht. apply in_map_iff in Ht.
      destruct Ht as ([i j] & <- & _). apply He.
  - simpl. now rewrite Hp.
Qed.

Lemma inter_block_filter (p : Trace -> bool) (b : bool) :
  (forall k L, p (inter_edge base_pos k L) = b) ->
  filter p (inter_block base_pos n N)
  = if b then inter_block base_pos n N else [].
Proof.
  intros Hp. destruct b.
  - apply filter_all. intros t Ht. unfold inter_block in Ht.
    apply in_flat_map in Ht. destruct Ht as (k & _ & Ht).
    apply in_map_iff in Ht. destruct Ht as (L & <- & _). apply Hp.
  - apply filter_none. intros t Ht. unfold inter_block in Ht.
    apply in_flat_map in Ht. destruct Ht as (k & _ & Ht).
    apply in_map_iff in Ht. destruct Ht as (L & <- & _). apply Hp.
Qed.

Lemma scene_marker_sets :
  filter is_node_trace scene = map (node_trace base_pos n) (range N).
Proof.
  unfold expected_traces. rewrite filter_app.
  rewrite (inter_block_filter is_node_trace (b := false))
    by (intros; apply inter_edge_kind).
  rewrite app_nil_r.
  rewrite (filter_blocks is_node_trace block (fun L => [node_trace base_pos n L])).
  - reflexivity.
  - intros L _.
    rewrite (@block_filter is_node_trace L true false false);
      [reflexivity | reflexivity | intros; apply edge_trace_kind | reflexivity].
Qed.

Lemma scene_plane_list :
  filter is_plane scene = map (plane base_pos n) (range N).
Proof.
  unfold expected_traces. rewrite filter_app.
  rewrite (inter_block_filter is_plane (b := false))
    by (intros; apply inter_edge_kind).
  rewrite app_nil_r.
  rewrite (filter_blocks is_plane block (fun L => [plane base_pos n L])).
  - reflexivity.
  - intros L _.
    rewrite (@block_filter is_plane L false false true);
      [reflexivity | reflexivity | intros; apply edge_trace_kind | reflexivity].
Qed.

Lemma scene_links :
  filter is_inter_edge scene = inter_block base_pos n N.
Proof.
  unfold expected_traces. rewrite filter_app.
  rewrite (inter_block_filter is_inter_edge (b := true))
    by (intros; apply inter_edge_kind).
  rewrite (filter_blocks is_inter_edge block (fun _ => [])).
  - rewrite flat_map_nil by reflexivity. reflexivity.
  - intros L _.
    rewrite (@block_filter is_inter_edge L false false false);
      [reflexivity | reflexivity | intros; apply edge_trace_kind | reflexivity].
Qed.

Lemma scene_marker_set_at (L : nat) :
  0 < n -> L < N ->
  filter (node_trace_at L) scene = [node_trace base_pos n L].
Proof.
  intros Hn HL. unfold expected_traces. rewrite filter_app.
  rewrite (inter_block_filter (node_trace_at L) (b := false)).
  - rewrite app_nil_r.
    rewrite (@filter_flat_map_only _ (node_trace_at L) _ N L HL).
    + rewrite (@block_filter (node_trace_at L) L true false false); [reflexivity | | | ].
      * unfold node_trace_at. rewrite node_trace_depth by exact Hn.
        now rewrite Nat.eqb_refl.
      * intros i j. unfold node_trace_at.
        now rewrite (proj1 (edge_trace_kind base_pos color_map L i j)).
      * reflexivity.
    + intros L' _ Hne.
      rewrite (@block_filter (node_trace_at L) L' false false false); [reflexivity | | | ].
      * unfold node_trace_at. rewrite node_trace_depth by exact Hn.
        destruct (Nat.eqb_spec L L'); [congruence | reflexivity].
      * intros i j. unfold node_trace_at.
        now rewrite (proj1 (edge_trace_kind base_pos color_map L' i j)).
      * reflexivity.
  - intros k L0. unfold node_trace_at.
    now rewrite (proj1 (inter_edge_kind base_pos k L0)).
Qed.

Lemma scene_known (t : Trace) : In t scene -> is_known t = true.
Proof.
  intros Hin. apply in_expected_traces in Hin. unfold is_known.
  destruct Hin as [(L & _ & ->)|[(L & i & j & _ & _ & ->)|[(L & _ & ->)|(k & L & _ & _ & ->)]]].
  - reflexivity.
  - now rewrite (proj1 (proj2 (edge_trace_kind _ _ L i j))), orb_true_r.
  - reflexivity.
  - now rewrite (proj1 (proj2 (proj2 (inter_edge_kind _ k L)))), orb_true_r.
Qed.

End SceneByKind.

Lemma length_append (s t : string) :
  String.length (s ++ t) = String.length s + String.length t.
Proof. induction s as [|c s IH]; simpl; [reflexivity | now rewrite IH]. Qed.

Lemma append_cancel_r (t : string) :
  forall s1 s2, s1 ++ t = s2 ++ t -> s1 = s2.
Proof.
  induction s1 as [|c s1 IH]; intros [|d s2] H; simpl in H.
  - reflexivity.
  - apply (f_equal String.length) in H. simpl in H.
    rewrite length_append in H. lia.
  - apply (f_equal String.length) in H. simpl in H.
    rewrite length_append in H. lia.
  - inversion H; subst. f_equal. now apply IH.
Qed.

(** The page around the plot and the table keeps them apart: two pages with
    the same table are equal only if their plots are. *)
Lemma append_cancel_l (p : string) :
  forall s1 s2, p ++ s1 = p ++ s2 -> s1 = s2.
Proof.
  induction p as [|c p IH]; intros s1 s2 H; simpl in H; [exact H|].
  inversion H. now apply IH.
Qed.

Lemma html_content_inj (html_graph html_graph' html_table : string) :
  html_content html_graph html_table = html_content html_graph' html_table ->
  html_graph = html_graph'.
Proof.
  unfold html_content. intros H.
  repeat match type of H with
         | ?p ++ _ = ?p ++ _ => apply append_cancel_l in H
         end.
  now apply append_cancel_r in H.
Qed.


(* ================================================================== *)
(** ** Properties of the script *)
(* ================================================================== *)

Section Claims.

Variable spring_layout : nat -> Z -> nat -> float * float.
Variable get_cmap : string -> nat -> nat -> rgba.
Variable to_html : string -> Figure -> string.
Variable world : Type.
Variable os_write : string -> string -> world -> world * option exn.
Variable os_print : string -> world -> world * option exn.

(** C4: for a valid multiplex graph and every layer [L], the script gets
    through, and the number of intra-layer edge primitives at the depth of
    [L] is the number of non-zero entries of [L]'s matrix, each ordered pair
    counted once. *)
Theorem intra_edge_count (array3d : matrix3d) (L : nat) :
  valid array3d = true ->
  L < List.length array3d ->
  exists traces,
    build_traces spring_layout get_cmap array3d = Ok traces
    /\ count (intra_edge_at L) traces = count_nonzero (nth L array3d []).
Proof.
  intros Hv HL. exists (expected_traces spring_layout get_cmap array3d).
  split; [now apply build_traces_accepts, valid_accepts|].
  unfold count. rewrite scene_intra_edges by exact HL.
  rewrite length_map. apply nonzero_pairs_length.
  apply valid_spec in Hv. now apply Hv.
Qed.

(** C5: for a valid multiplex graph of [n] nodes the script emits
    [n * (numLayers - 1)] inter-layer links, and none when there is one
    layer only. *)
Theorem inter_layer_link_count (array3d : matrix3d) :
  valid array3d = true ->
  exists traces,
    build_traces spring_layout get_cmap array3d = Ok traces
    /\ count is_inter_edge traces
       = node_count array3d * (List.length array3d - 1)
    /\ (List.length array3d = 1 -> count is_inter_edge traces = 0).
Proof.
  intros Hv. exists (expected_traces spring_layout get_cmap array3d).
  split; [now apply build_traces_accepts, valid_accepts|].
  rewrite scene_inter_edges. split; [reflexivity|].
  intros ->. simpl. lia.
Qed.

(** C6: for a valid multiplex graph the script emits [numLayers] node-marker
    primitives, each of [n] positions; every layer has its one node-marker
    primitive and its one plane, and an all-zero layer has no edge
    primitive. *)
Theorem node_marker_count (array3d : matrix3d) :
  valid array3d = true ->
  exists traces,
    build_traces spring_layout get_cmap array3d = Ok traces
    /\ count is_node_trace traces = List.length array3d
    /\ (forall t, In t traces -> is_node_trace t = true ->
          List.length (trace_x t) = node_count array3d
          /\ List.length (trace_y t) = node_count array3d
          /\ List.length (trace_z t) = node_count array3d)
    /\ (forall L, L < List.length array3d ->
          count (node_trace_at L) traces = 1
          /\ count (plane_at L) traces = 1
          /\ (all_zero (nth L array3d []) = true ->
              count (intra_edge_at L) traces = 0)).
Proof.
  intros Hv. exists (expected_traces spring_layout get_cmap array3d).
  split; [now apply build_traces_accepts, valid_accepts|].
  split; [apply scene_node_traces|].
  apply valid_spec in Hv. destruct Hv as (_ & Hn & _).
  split.
  - intros t Hin Hnode. apply in_expected_traces in Hin.
    destruct Hin as [(L & _ & ->)|[(L & i & j & _ & _ & ->)|[(L & _ & ->)|(k & L & _ & _ & ->)]]].
    + simpl. unfold x_nodes, y_nodes, z_nodes.
      now rewrite !length_map, length_range.
    + now rewrite (proj1 (edge_trace_kind _ _ L i j)) in Hnode.
    + discriminate.
    + now rewrite (proj1 (inter_edge_kind _ k L)) in Hnode.
  - intros L HL. split; [now apply scene_node_trace_at|].
    split; [now apply scene_plane_at|].
    intros Hz. unfold count. rewrite scene_intra_edges by exact HL.
    now rewrite all_zero_no_pairs.
Qed.

(** C7: for a valid multiplex graph, the [(x, y)] of every node comes from
    the one layout computed at line 20, whatever the layer.  In every layer
    [L] the marker set lists node [k] at [base_pos k]; the edges of [L] are,
    in scan order, the segments from [base_pos i] to [base_pos j] of the
    pairs [(i, j)] with a non-zero entry; the vertical links are, node after
    node, the segments that stay at [base_pos k]; only [z] differs between
    layers, and [z = 2 * layer_index] grows strictly with the layer index. *)
Theorem layout_shared_by_layers (array3d : matrix3d) :
  valid array3d = true ->
  exists traces,
    build_traces spring_layout get_cmap array3d = Ok traces
    /\ (forall L, L < List.length array3d ->
          map coords (filter (node_trace_at L) traces)
          = [marker_coords (spring_layout (node_count array3d) 42%Z)
                           (node_count array3d) L]
          /\ map coords (filter (intra_edge_at L) traces)
             = map (edge_coords (spring_layout (node_count array3d) 42%Z) L)
                   (nonzero_pairs (node_count array3d) (nth L array3d [])))
    /\ map coords (filter is_inter_edge traces)
       = flat_map (fun k =>
                     map (link_coords (spring_layout (node_count array3d) 42%Z) k)
                         (range (List.length array3d - 1)))
                  (range (node_count array3d))
    /\ (forall L, (z_offset L == 2 * inject_Z (Z.of_nat L))%Q)
    /\ (forall L1 L2, L1 < L2 -> (z_offset L1 < z_offset L2)%Q).
Proof.
  intros Hv. exists (expected_traces spring_layout get_cmap array3d).
  split; [now apply build_traces_accepts, valid_accepts|].
  pose proof (proj1 (valid_spec array3d) Hv) as (_ & Hn & _).
  split; [|split; [|split]].
  - intros L HL. split.
    + rewrite scene_marker_set_at by assumption. reflexivity.
    + rewrite scene_intra_edges by exact HL. rewrite map_map.
      apply map_ext. intros [i j]. now rewrite edge_trace_eq.
  - rewrite scene_links. unfold inter_block. rewrite map_flat_map.
    apply flat_map_ext_in. intros k _. rewrite map_map.
    apply map_ext. intros L. now rewrite inter_edge_eq.
  - intros L. unfold z_offset. ring.
  - intros L1 L2 Hlt. unfold z_offset, Qlt. simpl. lia.
Qed.



(** C10: for a valid multiplex graph every primitive is a marker set, an
    intra-layer edge, a plane or a vertical link; the marker sets are all
    lightblue, the planes all lightgray and the links all gray, whatever the
    layer; the edges of layer [L], one per non-zero entry, all carry the
    colormap's tuple of [L].  When the table is built, the heading of a
    layer and its non-zero cells carry the layer's colour and a zero cell is
    white whatever the layer. *)
Theorem fixed_colors (array3d : matrix3d) :
  valid array3d = true ->
  exists traces,
    build_traces spring_layout get_cmap array3d = Ok traces
    /\ (forall t, In t traces -> is_known t = true)
    /\ map trace_color (filter is_node_trace traces)
       = repeat (Some (ColorStr "lightblue")) (List.length array3d)
    /\ map trace_color (filter is_plane traces)
       = repeat (Some (ColorStr "lightgray")) (List.length array3d)
    /\ map trace_color (filter is_inter_edge traces)
       = repeat (Some (ColorStr "gray"))
                (node_count array3d * (List.length array3d - 1))
    /\ (forall L, L < List.length array3d ->
          map trace_color (filter (intra_edge_at L) traces)
          = repeat (Some (ColorTuple (get_cmap "tab10" (List.length array3d) L)))
                   (count_nonzero (nth L array3d [])))
    /\ (forall t, In t traces ->
          (is_node_trace t = true -> trace_color t = Some (ColorStr "lightblue"))
          /\ (is_plane t = true -> trace_color t = Some (ColorStr "lightgray"))
          /\ (is_inter_edge t = true -> trace_color t = Some (ColorStr "gray"))
          /\ (is_intra_edge t = true ->
              exists L, L < List.length array3d
                /\ at_depth (z_offset L) t = true
                /\ trace_color t
                   = Some (ColorTuple (get_cmap "tab10" (List.length array3d) L))))
    /\ (palette_ok get_cmap array3d = true ->
        printable array3d = true ->
        build_table get_cmap array3d
        = Ok ("<h2>Matrix Values (Layer Colors)</h2>"
              ++ join (map (fun item : nat * list (list Z) =>
                              let layer_color :=
                                css (get_cmap "tab10" (List.length array3d)
                                              (fst item)) in
                              ("<h3 style='color:" ++ layer_color ++ ";'>Layer "
                               ++ str_nat (fst item + 1) ++ "</h3>")
                              ++ "<table border='1' style='border-collapse:collapse;'>"
                              ++ join (map (fun row =>
                                              "<tr>"
                                              ++ join (map (cell_html layer_color) row)
                                              ++ "</tr>")
                                           (snd item))
                              ++ "</table><br>")
                           (enumerate array3d))))
    /\ (forall layer_color,
          cell_html layer_color 0
          = "<td style='background-color:white; padding:5px; text-align:center;'>0</td>")
    /\ (forall layer_color val, val <> 0%Z ->
          cell_html layer_color val
          = "<td style='background-color:" ++ layer_color
            ++ "; padding:5px; text-align:center;'>" ++ str val ++ "</td>").
Proof.
  intros Hv. exists (expected_traces spring_layout get_cmap array3d).
  split; [now apply build_traces_accepts, valid_accepts|].
  pose proof (proj1 (valid_spec array3d) Hv) as (_ & Hn & Hsq).
  split; [apply scene_known|].
  split.
  { rewrite scene_marker_sets, map_map.
    rewrite (map_ext _ (fun _ => Some (ColorStr "lightblue"))) by reflexivity.
    rewrite <- (length_range (List.length array3d)) at 2. apply map_const. }
  split.
  { rewrite scene_plane_list, map_map.
    rewrite (map_ext _ (fun _ => Some (ColorStr "lightgray"))) by reflexivity.
    rewrite <- (length_range (List.length array3d)) at 2. apply map_const. }
  split.
  { rewrite <- (scene_inter_edges spring_layout get_cmap array3d).
    unfold count. rewrite scene_links.
    rewrite <- (length_map trace_color). apply Forall_eq_repeat.
    apply Forall_forall. intros c Hc. apply in_map_iff in Hc.
    destruct Hc as (t & <- & Ht). unfold inter_block in Ht.
    apply in_flat_map in Ht. destruct Ht as (k & _ & Ht).
    apply in_map_iff in Ht. destruct Ht as (L & <- & _).
    now rewrite inter_edge_eq. }
  split.
  { intros L HL. rewrite scene_intra_edges by exact HL.
    rewrite <- (@nonzero_pairs_length _ _ (Hsq L HL)), map_map.
    rewrite (map_ext _ (fun _ => Some (ColorTuple
                                          (get_cmap "tab10" (List.length array3d) L))))
      by (intros [i j]; now rewrite edge_trace_eq).
    apply map_const. }
  split.
  { intros t Hin. apply in_expected_traces in Hin.
    destruct Hin as [(L & HL & ->)|[(L & i & j & HL & Hij & ->)|[(L & HL & ->)|(k & L & Hk & HL & ->)]]].
    - repeat split; try discriminate.
    - pose proof (edge_trace_depth (spring_layout (node_count array3d) 42%Z)
                                   (get_cmap "tab10" (List.length array3d)) L L i j) as Hd.
      rewrite Nat.eqb_refl in Hd. revert Hd. rewrite edge_trace_eq. intros Hd.
      repeat split; try discriminate.
      intros _. exists L. repeat split; assumption.
    - repeat split; try discriminate.
    - rewrite inter_edge_eq. repeat split; try discriminate. }
  split; [intros Hpal Hpr; rewrite build_table_ok by assumption; reflexivity|].
  split; [reflexivity|].
  intros lc val Hval. unfold cell_html.
  destruct (val =? 0)%Z eqn:He; [|reflexivity].
  apply Z.eqb_eq in He. contradiction.
Qed.

(** C3, as the script has it: there is no validation step.  An input the
    scan cannot get through -- no layer, no node, or a layer that lacks one
    of the rows or entries read -- ends the call with the IndexError or
    ValueError of the statement that hit it; the file is not opened and
    nothing is printed.  Every other input, square or not, gets through the
    geometry; when moreover the colour channels convert and the entries
    print, the document is built and handed to the one write of lines
    134-135, and the line of 137 is printed if that write raises nothing.
    An exception raised before line 134 leaves the world as it was. *)
Theorem input_outcome (array3d : matrix3d) (filename div_id : string)
        (w : world) :
  (accepts array3d = false ->
   fst (plot_3d_multilayer_graph_with_synced_colors
          spring_layout get_cmap to_html os_write os_print
          array3d filename div_id w) = w
   /\ ((array3d = []
        /\ snd (plot_3d_multilayer_graph_with_synced_colors
                  spring_layout get_cmap to_html os_write os_print
                  array3d filename div_id w)
           = Some IndexError)
       \/ (array3d <> [] /\ node_count array3d = 0
           /\ snd (plot_3d_multilayer_graph_with_synced_colors
                     spring_layout get_cmap to_html os_write os_print
                     array3d filename div_id w)
              = Some ValueError)
       \/ (array3d <> [] /\ 0 < node_count array3d
           /\ snd (plot_3d_multilayer_graph_with_synced_colors
                     spring_layout get_cmap to_html os_write os_print
                     array3d filename div_id w)
              = Some IndexError)))
  /\ (accepts array3d = true ->
      exists traces,
        build_traces spring_layout get_cmap array3d = Ok traces
        /\ (palette_ok get_cmap array3d = true ->
            printable array3d = true ->
            exists html_table,
              build_table get_cmap array3d = Ok html_table
              /\ plot_3d_multilayer_graph_with_synced_colors
                   spring_layout get_cmap to_html os_write os_print
                   array3d filename div_id w
                 = match os_write filename
                                  (html_content (to_html div_id (make_figure traces))
                                                html_table) w with
                   | (w', Some e) => (w', Some e)
                   | (w', None) => os_print (export_message filename) w'
                   end))
  /\ (forall e,
        build_document spring_layout get_cmap to_html div_id array3d = Raise e ->
        plot_3d_multilayer_graph_with_synced_colors
          spring_layout get_cmap to_html os_write os_print
          array3d filename div_id w = (w, Some e)).
Proof.
  unfold plot_3d_multilayer_graph_with_synced_colors.
  split; [|split];
    [| | intros e He; now rewrite He];
    unfold build_document.
  - intros Hrej.
    destruct (build_traces spring_layout get_cmap array3d) as [tr|e] eqn:Hrun.
    + apply build_traces_ok_inv in Hrun. congruence.
    + simpl. split; [reflexivity|].
      destruct (build_traces_raise _ _ _ Hrun)
        as [[Ha He]|[(Ha & Hn & He)|(Ha & Hn & He)]]; subst e; auto.
  - intros Hacc. exists (expected_traces spring_layout get_cmap array3d).
    split; [now apply build_traces_accepts|].
    intros Hpal Hpr. exists (expected_table get_cmap array3d).
    split; [now apply build_table_ok|].
    rewrite build_traces_accepts by exact Hacc. cbn [bind].
    rewrite build_table_ok by assumption. cbn [bind].
    reflexivity.
Qed.

(** C2, as the script has it: the identifier drawn inside [fig.to_html] is
    the only thing in which two runs on the same input can differ.  Both
    runs end with the same exception, or both build a page around the same
    figure and the same table, each with the serialization of its own draw;
    the two pages are equal exactly when the two serializations are. *)
Theorem runs_differ_by_div_id_only (array3d : matrix3d) (id1 id2 : string) :
  (exists e,
      build_document spring_layout get_cmap to_html id1 array3d = Raise e
      /\ build_document spring_layout get_cmap to_html id2 array3d = Raise e)
  \/ (exists traces html_table,
         build_traces spring_layout get_cmap array3d = Ok traces
         /\ build_table get_cmap array3d = Ok html_table
         /\ build_document spring_layout get_cmap to_html id1 array3d
            = Ok (html_content (to_html id1 (make_figure traces)) html_table)
         /\ build_document spring_layout get_cmap to_html id2 array3d
            = Ok (html_content (to_html id2 (make_figure traces)) html_table)
         /\ (build_document spring_layout get_cmap to_html id1 array3d
             = build_document spring_layout get_cmap to_html id2 array3d
             <-> to_html id1 (make_figure traces)
                 = to_html id2 (make_figure traces))).
Proof.
  unfold build_document.
  destruct (build_traces spring_layout get_cmap array3d) as [traces|e];
    [|left; exists e; split; reflexivity].
  cbn [bind].
  destruct (build_table get_cmap array3d) as [html_table|e];
    [|left; exists e; split; reflexivity].
  cbn [bind]. right. exists traces, html_table.
  repeat split; try reflexivity.
  - intros H. apply html_content_inj with (html_table := html_table). congruence.
  - intros H. now rewrite H.
Qed.

End Claims.

(* ================================================================== *)
(** ** The properties at the example inputs *)
(* ================================================================== *)

Import Samples.

(** C1: at the example array [A], every intra-layer edge primitive carries
    the colormap's tuple of four floats as it came from the colormap, while
    the table of the same layer carries [rgb(31, 119, 180)]: the conversion
    [int(c*255)] of line 103 is not applied where the edge's colour is set
    (line 53), and no edge primitive has the table's colour string. *)
Theorem edge_color_unconverted :
  exists traces html,
    build_traces layout cmap A = Ok traces
    /\ build_table cmap A = Ok html
    /\ count is_intra_edge traces = 9
    /\ forallb (fun t => implb (is_intra_edge t) (is_tuple_color (trace_color t)))
               traces = true
    /\ option_map trace_color (nth_error traces 1)
       = Some (Some (ColorTuple (0.12156862745098039, 0.4666666666666667,
                                 0.7058823529411765, 1)%float))
    /\ css (cmap "tab10" 3 0) = "rgb(31, 119, 180)"
    /\ ~ In (Some (ColorStr "rgb(31, 119, 180)")) (map trace_color traces)
    /\ html = expected_table cmap A
    /\ heading_html (css (cmap "tab10" 3 0)) 0
       = "<h3 style='color:rgb(31, 119, 180);'>Layer 1</h3>".
Proof.
  exists (expected_traces layout cmap A), (expected_table cmap A).
  split; [apply build_traces_accepts; reflexivity|].
  split; [apply build_table_ok; reflexivity|].
  split; [reflexivity|].
  split; [vm_compute; reflexivity|].
  split; [vm_compute; reflexivity|].
  split; [vm_compute; reflexivity|].
  split; [|split; [reflexivity | vm_compute; reflexivity]].
  intros Hin. apply in_map_iff in Hin. destruct Hin as (t & Hc & Hin).
  apply in_expected_traces in Hin.
  destruct Hin as [(L & _ & ->)|[(L & i & j & _ & _ & ->)|[(L & _ & ->)|(k & L & _ & _ & ->)]]].
  - discriminate.
  - rewrite edge_trace_eq in Hc. discriminate.
  - discriminate.
  - rewrite inter_edge_eq in Hc. discriminate.
Qed.

(** Against C3 as stated: a 2x3 layer and a pair of layers of different
    sizes are not valid multiplex graphs, yet, where the write goes through,
    the call ends normally and the file is written. *)
Lemma invalid_input_rendered :
  valid wide = false
  /\ valid mismatched = false
  /\ snd (plot_3d_multilayer_graph_with_synced_colors
            layout cmap serializer memory_write memory_print
            wide "out.html" "plot-1" empty_world) = None
  /\ files (fst (plot_3d_multilayer_graph_with_synced_colors
                   layout cmap serializer memory_write memory_print
                   wide "out.html" "plot-1" empty_world)) "out.html"
     <> None
  /\ snd (plot_3d_multilayer_graph_with_synced_colors
            layout cmap serializer memory_write memory_print
            mismatched "out.html" "plot-1" empty_world) = None.
Proof.
  split; [reflexivity|]. split; [reflexivity|].
  split; [vm_compute; reflexivity|].
  split; [vm_compute; discriminate | vm_compute; reflexivity].
Qed.

(** Against C2 as stated: two runs on the example array [A] whose draws of
    the [div] identifier differ build different documents, with a serializer
    that writes the identifier into the page. *)
Lemma two_runs_differ :
  build_document layout cmap serializer "plot-1" A
  <> build_document layout cmap serializer "plot-2" A.
Proof.
  unfold build_document.
  rewrite build_traces_accepts by reflexivity. cbn [bind].
  rewrite build_table_ok by reflexivity. cbn [bind].
  intros H.
  assert (H' : serializer "plot-1" (make_figure (expected_traces layout cmap A))
               = serializer "plot-2" (make_figure (expected_traces layout cmap A))).
  { apply html_content_inj with (html_table := expected_table cmap A). congruence. }
  vm_compute in H'. discriminate H'.
Qed.

Lemma intra_edge_count_witness :
  valid A = true /\ 1 < List.length A
  /\ exists traces,
       build_traces layout cmap A = Ok traces
       /\ count (intra_edge_at 1) traces = count_nonzero (nth 1 A []).
Proof.
  split; [reflexivity|]. split; [cbv; lia|].
  apply (intra_edge_count layout cmap A (L := 1)); [reflexivity | cbv; lia].
Defined.

Lemma inter_layer_link_count_witness :
  valid A = true
  /\ exists traces,
       build_traces layout cmap A = Ok traces
       /\ count is_inter_edge traces = node_count A * (List.length A - 1)
       /\ (List.length A = 1 -> count is_inter_edge traces = 0).
Proof.
  split; [reflexivity|].
  apply (inter_layer_link_count layout cmap A). reflexivity.
Defined.

Lemma node_marker_count_witness :
  valid blank = true
  /\ exists traces,
       build_traces layout cmap blank = Ok traces
       /\ count is_node_trace traces = List.length blank
       /\ (forall t, In t traces -> is_node_trace t = true ->
             List.length (trace_x t) = node_count blank
             /\ List.length (trace_y t) = node_count blank
             /\ List.length (trace_z t) = node_count blank)
       /\ (forall L, L < List.length blank ->
             count (node_trace_at L) traces = 1
             /\ count (plane_at L) traces = 1
             /\ (all_zero (nth L blank []) = true ->
                 count (intra_edge_at L) traces = 0)).
Proof.
  split; [reflexivity|].
  apply (node_marker_count layout cmap blank). reflexivity.
Defined.

Lemma layout_shared_by_layers_witness :
  valid A = true
  /\ exists traces,
       build_traces layout cmap A = Ok traces
       /\ (forall L, L < List.length A ->
             map coords (filter (node_trace_at L) traces)
             = [marker_coords (layout (node_count A) 42%Z) (node_count A) L]
             /\ map coords (filter (intra_edge_at L) traces)
                = map (edge_coords (layout (node_count A) 42%Z) L)
                      (nonzero_pairs (node_count A) (nth L A [])))
       /\ map coords (filter is_inter_edge traces)
          = flat_map (fun k => map (link_coords (layout (node_count A) 42%Z) k)
                                   (range (List.length A - 1)))
                     (range (node_count A))
       /\ (forall L, (z_offset L == 2 * inject_Z (Z.of_nat L))%Q)
       /\ (forall L1 L2, L1 < L2 -> (z_offset L1 < z_offset L2)%Q).
Proof.
  split; [reflexivity|].
  apply (layout_shared_by_layers layout cmap A). reflexivity.
Defined.



Lemma fixed_colors_witness :
  valid A = true
  /\ exists traces,
       build_traces layout cmap A = Ok traces
       /\ (forall t, In t traces -> is_known t = true)
       /\ map trace_color (filter is_node_trace traces)
          = repeat (Some (ColorStr "lightblue")) (List.length A)
       /\ map trace_color (filter is_plane traces)
          = repeat (Some (ColorStr "lightgray")) (List.length A)
       /\ map trace_color (filter is_inter_edge traces)
          = repeat (Some (ColorStr "gray")) (node_count A * (List.length A - 1))
       /\ (forall L, L < List.length A ->
             map trace_color (filter (intra_edge_at L) traces)
             = repeat (Some (ColorTuple (cmap "tab10" (List.length A) L)))
                      (count_nonzero (nth L A []))).
Proof.
  split; [reflexivity|].
  destruct (fixed_colors layout cmap A eq_refl)
    as (traces & Hrun & Hknown & Hnodes & Hplanes & Hlinks & Hedges & _).
  exists traces. repeat split; assumption.
Defined.

Lemma input_outcome_witness :
  (accepts [[]] = false
   /\ fst (plot_3d_multilayer_graph_with_synced_colors
             layout cmap serializer memory_write memory_print
             [[]] "out.html" "plot-1" empty_world) = empty_world)
  /\ (accepts wide = true
      /\ exists traces, build_traces layout cmap wide = Ok traces)
  /\ (accepts wide = true /\ palette_ok cmap wide = true /\ printable wide = true
      /\ snd (plot_3d_multilayer_graph_with_synced_colors
                layout cmap serializer refused_write memory_print
                wide "out.html" "plot-1" empty_world) = Some OSError).
Proof.
  split; [|split].
  - split; [reflexivity|].
    apply (proj1 (input_outcome layout cmap serializer memory_write memory_print
                                [[]] "out.html" "plot-1" empty_world)).
    reflexivity.
  - split; [reflexivity|].
    destruct (proj1 (proj2 (input_outcome layout cmap serializer memory_write
                                          memory_print wide "out.html" "plot-1"
                                          empty_world)) eq_refl)
      as (traces & Hrun & _).
    exists traces. exact Hrun.
  - split; [reflexivity|]. split; [reflexivity|]. split; [reflexivity|].
    destruct (proj1 (proj2 (input_outcome layout cmap serializer refused_write
                                          memory_print wide "out.html" "plot-1"
                                          empty_world)) eq_refl)
      as (traces & Hrun & Hdoc).
    destruct (Hdoc eq_refl eq_refl) as (html_table & _ & Hcall).
    rewrite Hcall. reflexivity.
Defined.

Lemma runs_differ_by_div_id_only_witness :
  exists traces html_table,
    build_traces layout cmap A = Ok traces
    /\ build_table cmap A = Ok html_table
    /\ build_document layout cmap serializer "plot-1" A
       = Ok (html_content (serializer "plot-1" (make_figure traces)) html_table)
    /\ build_document layout cmap serializer "plot-2" A
       = Ok (html_content (serializer "plot-2" (make_figure traces)) html_table).
Proof.
  destruct (runs_differ_by_div_id_only layout cmap serializer A "plot-1" "plot-2")
    as [(e & H1 & _)|(traces & html_table & Ht & Hh & H1 & H2 & _)].
  - vm_compute in H1. discriminate H1.
  - exists traces, html_table. repeat split; assumption.
Defined.

(* ================================================================== *)
(** ** Further properties: the order and the size of the scene *)
(* ================================================================== *)

Lemma least_in (xs : list float) :
  forall x, In (least x xs) (x :: xs).
Proof.
  unfold least. induction xs as [|y xs IH]; intros x; simpl.
  - left; reflexivity.
  - destruct (IH (if PrimFloat.ltb y x then y else x)) as [H|H].
    + destruct (PrimFloat.ltb y x); [right; left | left]; exact H.
    + right; right; exact H.
Qed.

Lemma greatest_in (xs : list float) :
  forall x, In (greatest x xs) (x :: xs).
Proof.
  unfold greatest. induction xs as [|y xs IH]; intros x; simpl.
  - left; reflexivity.
  - destruct (IH (if PrimFloat.ltb x y then y else x)) as [H|H].
    + destruct (PrimFloat.ltb x y); [right; left | left]; exact H.
    + right; right; exact H.
Qed.

Lemma lo_in (xs : list float) : xs <> [] -> In (lo xs) xs.
Proof. destruct xs as [|x xs]; [congruence|]. intros _. apply least_in. Qed.

Lemma hi_in (xs : list float) : xs <> [] -> In (hi xs) xs.
Proof. destruct xs as [|x xs]; [congruence|]. intros _. apply greatest_in. Qed.

Lemma inter_edge_depth (base_pos : nat -> float * float) (k L L' : nat) :
  at_depth (z_offset L) (inter_edge base_pos k L') = false.
Proof.
  rewrite inter_edge_eq. unfold at_depth. simpl.
  rewrite !z_offset_eqb.
  destruct (Nat.eqb_spec L L') as [->|_]; simpl; [|reflexivity].
  destruct (Nat.eqb_spec L' (L' + 1)); [lia | reflexivity].
Qed.

Lemma list_sum_map_add {A : Type} (f : A -> nat) (c : nat) (l : list A) :
  list_sum (map (fun x => c + f x) l) = c * List.length l + list_sum (map f l).
Proof. induction l as [|x l IH]; simpl; [lia | rewrite IH; lia]. Qed.

Lemma list_sum_const {A : Type} (c : nat) (l : list A) :
  list_sum (map (fun _ => c) l) = List.length l * c.
Proof. induction l as [|x l IH]; simpl; [reflexivity | rewrite IH; lia]. Qed.

Section SceneOrder.

Variable spring_layout : nat -> Z -> nat -> float * float.
Variable get_cmap : string -> nat -> nat -> rgba.
Variable array3d : matrix3d.

Local Abbreviation n := (node_count array3d).
Local Abbreviation N := (List.length array3d).
Local Abbreviation base_pos := (spring_layout (node_count array3d) 42%Z).
Local Abbreviation color_map := (get_cmap "tab10" (List.length array3d)).
Local Abbreviation scene := (expected_traces spring_layout get_cmap array3d).

(** Selecting the primitives that lie flat at the depth of a layer gives
    back that layer's block, in order. *)
Lemma scene_layer (L : nat) :
  0 < n -> L < N ->
  filter (at_depth (z_offset L)) scene
  = layer_block base_pos color_map n array3d L.
Proof.
  intros Hn HL. unfold expected_traces. rewrite filter_app.
  rewrite (@filter_flat_map_only _ (at_depth (z_offset L)) _ N L HL).
  - rewrite (filter_none (at_depth (z_offset L)) (inter_block base_pos n N)).
    + rewrite app_nil_r. apply filter_all. intros t Ht.
      unfold layer_block in Ht. destruct Ht as [<-|Ht].
      * rewrite node_trace_depth by exact Hn. apply Nat.eqb_refl.
      * apply in_app_iff in Ht. destruct Ht as [Ht|[<-|[]]].
        -- apply in_map_iff in Ht. destruct Ht as ([i j] & <- & _).
           rewrite edge_trace_depth. apply Nat.eqb_refl.
        -- rewrite plane_depth. apply Nat.eqb_refl.
    + intros t Ht. unfold inter_block in Ht. apply in_flat_map in Ht.
      destruct Ht as (k & _ & Ht). apply in_map_iff in Ht.
      destruct Ht as (L' & <- & _). apply inter_edge_depth.
  - intros L' _ Hne. apply filter_none. intros t Ht.
    assert (Hf : (L =? L')%nat = false) by (apply Nat.eqb_neq; congruence).
    unfold layer_block in Ht. destruct Ht as [<-|Ht].
    + now rewrite node_trace_depth.
    + apply in_app_iff in Ht. destruct Ht as [Ht|[<-|[]]].
      * apply in_map_iff in Ht. destruct Ht as ([i j] & <- & _).
        now rewrite edge_trace_depth.
      * now rewrite plane_depth.
Qed.

Lemma layer_block_length (L : nat) :
  List.length (layer_block base_pos color_map n array3d L)
  = 2 + List.length (nonzero_pairs n (nth L array3d [])).
Proof.
  unfold layer_block. simpl. rewrite length_app, length_map. simpl. lia.
Qed.

Lemma inter_block_length :
  List.length (inter_block base_pos n N) = n * (N - 1).
Proof.
  unfold inter_block. rewrite length_flat_map.
  rewrite (map_ext _ (fun _ => N - 1))
    by (intros; now rewrite length_map, length_range).
  rewrite list_sum_const. now rewrite length_range.
Qed.

End SceneOrder.

(* ================================================================== *)
(** ** Further properties: what the scene depends on *)
(* ================================================================== *)

Lemma bool_eq_iff (b b' : bool) : (b = true <-> b' = true) -> b = b'.
Proof.
  destruct b, b'; intros [H1 H2]; try reflexivity.
  - symmetry. now apply H1.
  - now apply H2.
Qed.

Lemma node_count_nth (array3d : matrix3d) :
  node_count array3d = List.length (nth 0 array3d []).
Proof. now destruct array3d. Qed.

Section SamePattern.

Variables matrix matrix' : list (list Z).
Hypothesis Hpat : map (map nonzero) matrix = map (map nonzero) matrix'.

Lemma same_rows : List.length matrix = List.length matrix'.
Proof.
  apply (f_equal (@List.length _)) in Hpat. now rewrite !length_map in Hpat.
Qed.

Lemma same_row_pattern (i : nat) :
  map nonzero (nth i matrix []) = map nonzero (nth i matrix' []).
Proof.
  change (@nil bool) with (map nonzero []).
  rewrite <- !(map_nth (map nonzero)). simpl. now rewrite Hpat.
Qed.

Lemma same_columns (i : nat) :
  List.length (nth i matrix []) = List.length (nth i matrix' []).
Proof.
  pose proof (f_equal (@List.length _) (same_row_pattern i)) as H.
  now rewrite !length_map in H.
Qed.

Lemma same_nonzero (i j : nat) :
  nonzero (entry matrix i j) = nonzero (entry matrix' i j).
Proof.
  unfold entry. rewrite <- !(map_nth nonzero). now rewrite same_row_pattern.
Qed.

Lemma same_covers (n : nat) : covers n matrix = covers n matrix'.
Proof.
  apply bool_eq_iff. rewrite !covers_spec, same_rows.
  split; intros [H1 H2]; (split; [exact H1|]); intros i Hi;
    [rewrite <- same_columns | rewrite same_columns]; now apply H2.
Qed.

Lemma same_nonzero_pairs (n : nat) :
  nonzero_pairs n matrix = nonzero_pairs n matrix'.
Proof.
  unfold nonzero_pairs. apply filter_ext. intros [i j]. apply same_nonzero.
Qed.

End SamePattern.

Section SamePatternInputs.

Variable spring_layout : nat -> Z -> nat -> float * float.
Variable get_cmap : string -> nat -> nat -> rgba.
Variables array3d array3d' : matrix3d.
Hypothesis Hpat : pattern array3d = pattern array3d'.

Lemma pattern_length : List.length array3d = List.length array3d'.
Proof.
  apply (f_equal (@List.length _)) in Hpat. unfold pattern in Hpat.
  now rewrite !length_map in Hpat.
Qed.

Lemma pattern_layer (L : nat) :
  map (map nonzero) (nth L array3d []) = map (map nonzero) (nth L array3d' []).
Proof.
  change (@nil (list bool)) with (map (map nonzero) []).
  rewrite <- !(map_nth (map (map nonzero))). simpl.
  unfold pattern in Hpat. now rewrite Hpat.
Qed.

Lemma pattern_node_count : node_count array3d = node_count array3d'.
Proof.
  rewrite !node_count_nth. apply same_rows, pattern_layer.
Qed.

Lemma pattern_accepts : accepts array3d = accepts array3d'.
Proof.
  apply bool_eq_iff. rewrite !accepts_spec.
  rewrite <- pattern_length, <- pattern_node_count.
  assert (Hnil : array3d <> [] <-> array3d' <> []).
  { pose proof pattern_length as Hl.
    destruct array3d, array3d'; simpl in Hl; try discriminate;
      split; congruence. }
  rewrite Hnil.
  split; intros (H1 & H2 & H3); (split; [exact H1|]); (split; [exact H2|]);
    intros L HL;
    [rewrite <- (@same_covers _ _ (pattern_layer L)) | rewrite (@same_covers _ _ (pattern_layer L))];
    now apply H3.
Qed.

Lemma pattern_expected_traces :
  expected_traces spring_layout get_cmap array3d
  = expected_traces spring_layout get_cmap array3d'.
Proof.
  unfold expected_traces.
  rewrite <- pattern_length, <- pattern_node_count. f_equal.
  apply flat_map_ext_in. intros L _. unfold layer_block.
  now rewrite (@same_nonzero_pairs _ _ (pattern_layer L)).
Qed.

End SamePatternInputs.

Lemma firstn_default (n i : nat) (matrix : list (list Z)) :
  nth i (map (firstn n) (firstn n matrix)) []
  = firstn n (nth i (firstn n matrix) []).
Proof.
  rewrite <- (map_nth (firstn n)). now rewrite firstn_nil.
Qed.

Lemma crop_entry (n i j : nat) (matrix : list (list Z)) :
  i < n -> j < n ->
  entry (map (firstn n) (firstn n matrix)) i j = entry matrix i j.
Proof.
  intros Hi Hj. unfold entry.
  rewrite firstn_default, !nth_firstn.
  apply Nat.ltb_lt in Hi. apply Nat.ltb_lt in Hj. now rewrite Hi, Hj.
Qed.

Lemma crop_square (n : nat) (matrix : list (list Z)) :
  covers n matrix = true -> square n (map (firstn n) (firstn n matrix)) = true.
Proof.
  unfold covers. rewrite andb_true_iff, Nat.leb_le, forallb_forall.
  intros [Hrows Hcols]. apply square_spec. split.
  - rewrite length_map, length_firstn. lia.
  - intros row Hrow. apply in_map_iff in Hrow. destruct Hrow as (r & <- & Hr).
    specialize (Hcols r Hr). apply Nat.leb_le in Hcols.
    rewrite length_firstn. lia.
Qed.

Lemma crop_length (array3d : matrix3d) :
  List.length (crop array3d) = List.length array3d.
Proof. unfold crop. apply length_map. Qed.

Lemma crop_node_count (array3d : matrix3d) :
  node_count (crop array3d) = node_count array3d.
Proof.
  destruct array3d as [|first rest]; [reflexivity|].
  unfold crop, node_count. simpl hd.
  rewrite length_map, length_firstn. lia.
Qed.

Lemma crop_nth (array3d : matrix3d) (L : nat) :
  nth L (crop array3d) []
  = map (firstn (node_count array3d))
        (firstn (node_count array3d) (nth L array3d [])).
Proof.
  unfold crop.
  rewrite <- (map_nth (fun matrix => map (firstn (node_count array3d))
                                         (firstn (node_count array3d) matrix))).
  now rewrite firstn_nil.
Qed.

Lemma crop_valid (array3d : matrix3d) :
  accepts array3d = true -> valid (crop array3d) = true.
Proof.
  intros Hacc. apply accepts_spec in Hacc. destruct Hacc as (Hne & Hn & Hall).
  apply valid_spec. rewrite crop_length, crop_node_count.
  split; [|split; [exact Hn|]].
  - intros H. apply (f_equal (@List.length _)) in H.
    rewrite crop_length in H. destruct array3d; [congruence | discriminate].
  - intros L HL. rewrite crop_nth. apply crop_square. now apply Hall.
Qed.

Lemma crop_expected_traces (spring_layout : nat -> Z -> nat -> float * float)
      (get_cmap : string -> nat -> nat -> rgba) (array3d : matrix3d) :
  expected_traces spring_layout get_cmap (crop array3d)
  = expected_traces spring_layout get_cmap array3d.
Proof.
  unfold expected_traces. rewrite crop_length, crop_node_count. f_equal.
  apply flat_map_ext_in. intros L _. unfold layer_block. do 3 f_equal.
  rewrite crop_nth. unfold nonzero_pairs. apply filter_ext_in.
  intros [i j] Hin. apply in_prod_iff in Hin. rewrite !in_range in Hin.
  simpl. now rewrite crop_entry.
Qed.

(* ================================================================== *)
(** ** Further properties: errors of the table, printed numbers *)
(* ================================================================== *)

Lemma int_of_float_raise (f : float) (e : exn) :
  int_of_float f = Raise e -> e = ValueError \/ e = OverflowError.
Proof.
  unfold int_of_float. destruct (Prim2SF f); intros H; inversion H; auto.
Qed.

Lemma layer_color_raise (c : rgba) (e : exn) :
  layer_color c = Raise e -> e = ValueError \/ e = OverflowError.
Proof.
  destruct c as [[[c0 c1] c2] c3]. unfold layer_color.
  destruct (int_of_float (c0 * 255)) as [r|e0] eqn:H0; simpl;
    [|intros H; inversion H; subst; eapply int_of_float_raise; eauto].
  destruct (int_of_float (c1 * 255)) as [g|e1] eqn:H1; simpl;
    [|intros H; inversion H; subst; eapply int_of_float_raise; eauto].
  destruct (int_of_float (c2 * 255)) as [b|e2] eqn:H2; simpl;
    [discriminate|intros H; inversion H; subst; eapply int_of_float_raise; eauto].
Qed.

Lemma bind_raise_inv {A B : Type} (m : result A) (k : A -> result B) (e : exn) :
  bind m k = Raise e -> m = Raise e \/ exists a, m = Ok a /\ k a = Raise e.
Proof. destruct m as [a|e0]; simpl; intros H; [right; eauto | left; congruence]. Qed.

Lemma table_row_raise (lc : string) (row : list Z) (s : string) (e : exn) :
  table_row lc row s = Raise e -> e = ValueError.
Proof.
  unfold table_row. intros H.
  destruct (bind_raise_inv _ _ H) as [Hloop|(t & _ & Hk)]; [|discriminate].
  destruct (for_in_raise_inv _ _ _ Hloop) as (v & s1 & _ & Hcell).
  unfold table_cell in Hcell.
  destruct (bind_raise_inv _ _ Hcell) as [Hf|(t & _ & Hk)]; [|discriminate].
  eapply format_int_raise; eauto.
Qed.

Lemma build_table_raise (get_cmap : string -> nat -> nat -> rgba)
      (array3d : matrix3d) (e : exn) :
  build_table get_cmap array3d = Raise e -> e = ValueError \/ e = OverflowError.
Proof.
  unfold build_table. intros Hrun.
  destruct (for_in_raise_inv _ _ _ Hrun) as ([L matrix] & s & _ & Hb).
  unfold table_body in Hb.
  destruct (bind_raise_inv _ _ Hb) as [Hc|(lc & _ & Hrest)];
    [eapply layer_color_raise; eauto|].
  destruct (bind_raise_inv _ _ Hrest) as [Hrows|(t & _ & Hk)]; [|discriminate].
  destruct (for_in_raise_inv _ _ _ Hrows) as (row & s1 & _ & Hrow).
  left. eapply table_row_raise; eauto.
Qed.

Lemma to_int_proper (z : Z) : Z.to_int z <> Pos Nil /\ Z.to_int z <> Neg Nil.
Proof.
  destruct z; simpl; split; try discriminate; intros H; inversion H;
    now apply (DecimalPos.Unsigned.to_uint_nonnil p).
Qed.

Lemma parse_str (z : Z) : parse_int (str z) = Some z.
Proof.
  unfold parse_int, str.
  rewrite NilZero.isi by apply to_int_proper.
  simpl. now rewrite DecimalZ.of_to.
Qed.

Lemma str_inj (a b : Z) : str a = str b -> a = b.
Proof.
  intros H. apply (f_equal parse_int) in H. rewrite !parse_str in H. congruence.
Qed.

Lemma str_nat_inj (a b : nat) : str_nat a = str_nat b -> a = b.
Proof. unfold str_nat. intros H. apply str_inj in H. lia. Qed.

(* ================================================================== *)
(** ** Further properties of the script *)
(* ================================================================== *)

Section Further.

Variable spring_layout : nat -> Z -> nat -> float * float.
Variable get_cmap : string -> nat -> nat -> rgba.
Variable to_html : string -> Figure -> string.
Variable world : Type.
Variable os_write : string -> string -> world -> world * option exn.
Variable os_print : string -> world -> world * option exn.

(** X1: for an input the scan gets through, the list of primitives is, layer
    after layer, the layer's marker set, its edges in the order of the scan
    (row by row, column by column) and its plane; the vertical links follow
    after all layers, node by node and, for a node, from the bottom up. *)
Theorem scene_order (array3d : matrix3d) :
  accepts array3d = true ->
  build_traces spring_layout get_cmap array3d
  = Ok (flat_map
          (fun L =>
             node_trace (spring_layout (node_count array3d) 42%Z)
                        (node_count array3d) L
             :: map (fun ij =>
                       edge_trace (spring_layout (node_count array3d) 42%Z)
                                  (get_cmap "tab10" (List.length array3d))
                                  L (fst ij) (snd ij))
                    (filter (fun ij =>
                               nonzero (entry (nth L array3d []) (fst ij) (snd ij)))
                            (list_prod (range (node_count array3d))
                                       (range (node_count array3d))))
             ++ [plane (spring_layout (node_count array3d) 42%Z)
                       (node_count array3d) L])
          (range (List.length array3d))
        ++ flat_map
             (fun k => map (inter_edge (spring_layout (node_count array3d) 42%Z) k)
                           (range (List.length array3d - 1)))
             (range (node_count array3d)))%list.
Proof.
  intros Hacc. rewrite build_traces_accepts by exact Hacc. reflexivity.
Qed.

(** X2: for a valid multiplex graph of [n] nodes and [N] layers the script
    emits [2 * N + (number of non-zero entries of all layers) + n * (N - 1)]
    primitives in all. *)
Theorem primitive_total (array3d : matrix3d) :
  valid array3d = true ->
  exists traces,
    build_traces spring_layout get_cmap array3d = Ok traces
    /\ List.length traces
       = 2 * List.length array3d + total_nonzero array3d
         + node_count array3d * (List.length array3d - 1).
Proof.
  intros Hv. exists (expected_traces spring_layout get_cmap array3d).
  split; [now apply build_traces_accepts, valid_accepts|].
  apply valid_spec in Hv. destruct Hv as (_ & _ & Hsq).
  unfold expected_traces. rewrite length_app, inter_block_length, length_flat_map.
  f_equal.
  rewrite (map_ext_in _ (fun L => 2 + count_nonzero (nth L array3d []))).
  - rewrite list_sum_map_add, length_range. f_equal.
    unfold total_nonzero.
    rewrite <- (map_nth_range array3d []) at 2. now rewrite map_map.
  - intros L HL. apply in_range in HL.
    rewrite layer_block_length. f_equal.
    apply nonzero_pairs_length. now apply Hsq.
Qed.

(** X3: every plane takes each of its corner coordinates from a node of the
    layout, and all planes have the same corners whatever the layer; with one
    node only, the four corners fall on that node. *)
Theorem plane_corners (array3d : matrix3d) :
  accepts array3d = true ->
  exists traces,
    build_traces spring_layout get_cmap array3d = Ok traces
    /\ forall t, In t traces -> is_plane t = true ->
         (forall x, In x (trace_x t) ->
            exists k, k < node_count array3d
                      /\ x = fst (spring_layout (node_count array3d) 42%Z k))
         /\ (forall y, In y (trace_y t) ->
               exists k, k < node_count array3d
                         /\ y = snd (spring_layout (node_count array3d) 42%Z k))
         /\ (forall t', In t' traces -> is_plane t' = true ->
               trace_x t' = trace_x t /\ trace_y t' = trace_y t)
         /\ (node_count array3d = 1 ->
             let p := spring_layout 1 42%Z 0 in
             trace_x t = [fst p; fst p; fst p; fst p]
             /\ trace_y t = [snd p; snd p; snd p; snd p]).
Proof.
  intros Hacc. exists (expected_traces spring_layout get_cmap array3d).
  split; [now apply build_traces_accepts|].
  apply accepts_spec in Hacc. destruct Hacc as (_ & Hn & _).
  assert (Hplane : forall t,
             In t (expected_traces spring_layout get_cmap array3d) ->
             is_plane t = true ->
             exists L, t = plane (spring_layout (node_count array3d) 42%Z)
                                 (node_count array3d) L).
  { intros t Hin Hp. apply in_expected_traces in Hin.
    destruct Hin as [(L & _ & ->)|[(L & i & j & _ & _ & ->)|[(L & _ & ->)|(k & L & _ & _ & ->)]]].
    - discriminate.
    - now rewrite (proj2 (proj2 (proj2 (edge_trace_kind _ _ L i j)))) in Hp.
    - eauto.
    - now rewrite (proj2 (proj2 (proj2 (inter_edge_kind _ k L)))) in Hp. }
  intros t Hin Hp. destruct (Hplane t Hin Hp) as (L & ->).
  pose proof (lo_in (x_nodes_nonempty (spring_layout (node_count array3d) 42%Z) Hn)) as Hxl.
  pose proof (hi_in (x_nodes_nonempty (spring_layout (node_count array3d) 42%Z) Hn)) as Hxh.
  pose proof (lo_in (y_nodes_nonempty (spring_layout (node_count array3d) 42%Z) Hn)) as Hyl.
  pose proof (hi_in (y_nodes_nonempty (spring_layout (node_count array3d) 42%Z) Hn)) as Hyh.
  assert (Hx : forall x, In x (x_nodes (spring_layout (node_count array3d) 42%Z)
                                       (node_count array3d)) ->
               exists k, k < node_count array3d
                         /\ x = fst (spring_layout (node_count array3d) 42%Z k)).
  { intros x Hx. apply in_map_iff in Hx. destruct Hx as (k & <- & Hk).
    apply in_range in Hk. eauto. }
  assert (Hy : forall y, In y (y_nodes (spring_layout (node_count array3d) 42%Z)
                                       (node_count array3d)) ->
               exists k, k < node_count array3d
                         /\ y = snd (spring_layout (node_count array3d) 42%Z k)).
  { intros y Hy. apply in_map_iff in Hy. destruct Hy as (k & <- & Hk).
    apply in_range in Hk. eauto. }
  split; [|split; [|split]].
  - intros x Hin'. simpl in Hin'.
    destruct Hin' as [<-|[<-|[<-|[<-|[]]]]]; auto.
  - intros y Hin'. simpl in Hin'.
    destruct Hin' as [<-|[<-|[<-|[<-|[]]]]]; auto.
  - intros t' Hin' Hp'. destruct (Hplane t' Hin' Hp') as (L' & ->). split; reflexivity.
  - intros H1. rewrite H1. simpl. split; reflexivity.
Qed.

(** X4: the scene ignores the weights.  Two inputs that are zero at the same
    places give the same primitives, or end with the same exception. *)
Theorem weights_ignored (array3d array3d' : matrix3d) :
  pattern array3d = pattern array3d' ->
  build_traces spring_layout get_cmap array3d
  = build_traces spring_layout get_cmap array3d'.
Proof.
  intros Hpat.
  pose proof (@pattern_accepts _ _ Hpat) as Hacc.
  destruct (accepts array3d) eqn:Ha.
  - rewrite !build_traces_accepts by congruence.
    now rewrite (@pattern_expected_traces spring_layout get_cmap _ _ Hpat).
  - destruct (build_traces spring_layout get_cmap array3d) as [t|e] eqn:H1;
      [apply build_traces_ok_inv in H1; congruence|].
    destruct (build_traces spring_layout get_cmap array3d') as [t'|e'] eqn:H2;
      [apply build_traces_ok_inv in H2; congruence|].
    pose proof (@pattern_length _ _ Hpat) as Hlen.
    pose proof (@pattern_node_count _ _ Hpat) as Hcnt.
    f_equal.
    destruct (build_traces_raise _ _ _ H1) as [[A1 E1]|[(A1 & N1 & E1)|(A1 & N1 & E1)]];
      destruct (build_traces_raise _ _ _ H2) as [[A2 E2]|[(A2 & N2 & E2)|(A2 & N2 & E2)]];
      subst e e'; try reflexivity; exfalso;
      try (subst array3d; destruct array3d'; simpl in Hlen; [congruence|discriminate]);
      try (subst array3d'; destruct array3d; simpl in Hlen; [congruence|discriminate]);
      lia.
Qed.

(** X5: the scene reads the [n] by [n] block of each layer and nothing else.
    An input the scan gets through gives the same primitives as the input
    cut down to those blocks, which is a valid multiplex graph. *)
Theorem block_only (array3d : matrix3d) :
  accepts array3d = true ->
  valid (crop array3d) = true
  /\ build_traces spring_layout get_cmap (crop array3d)
     = build_traces spring_layout get_cmap array3d.
Proof.
  intros Hacc. split; [now apply crop_valid|].
  rewrite (build_traces_accepts _ _ (crop array3d))
    by (now apply valid_accepts, crop_valid).
  rewrite build_traces_accepts by exact Hacc.
  now rewrite crop_expected_traces.
Qed.

(** X6: a layer's primitives depend on that layer's matrix only.  For two
    inputs the scan gets through, with as many layers and as many nodes and
    the same matrix at layer [L], the primitives lying flat at the depth of
    [L] are the same, in the same order: the marker set, the edges, the
    plane. *)
Theorem layer_independent (array3d array3d' : matrix3d) (L : nat) :
  accepts array3d = true ->
  accepts array3d' = true ->
  List.length array3d = List.length array3d' ->
  node_count array3d = node_count array3d' ->
  L < List.length array3d ->
  nth L array3d [] = nth L array3d' [] ->
  exists traces traces',
    build_traces spring_layout get_cmap array3d = Ok traces
    /\ build_traces spring_layout get_cmap array3d' = Ok traces'
    /\ filter (at_depth (z_offset L)) traces
       = filter (at_depth (z_offset L)) traces'
    /\ filter (at_depth (z_offset L)) traces
       = (node_trace (spring_layout (node_count array3d) 42%Z)
                     (node_count array3d) L
          :: map (fun ij =>
                    edge_trace (spring_layout (node_count array3d) 42%Z)
                               (get_cmap "tab10" (List.length array3d))
                               L (fst ij) (snd ij))
                 (nonzero_pairs (node_count array3d) (nth L array3d []))
          ++ [plane (spring_layout (node_count array3d) 42%Z)
                    (node_count array3d) L])%list.
Proof.
  intros Ha Ha' Hlen Hcnt HL Hm.
  exists (expected_traces spring_layout get_cmap array3d),
         (expected_traces spring_layout get_cmap array3d').
  split; [now apply build_traces_accepts|].
  split; [now apply build_traces_accepts|].
  pose proof (proj1 (accepts_spec array3d) Ha) as (_ & Hn & _).
  rewrite !scene_layer by lia.
  split; [|reflexivity].
  unfold layer_block. now rewrite <- Hlen, <- Hcnt, Hm.
Qed.

(** X7: the table is built for every shape of input, ragged rows included:
    it fails only when a colour channel of some layer does not convert to an
    integer or an entry has more digits than the interpreter prints, and
    then with the ValueError or OverflowError of [int] or of the
    formatting. *)
Theorem table_status (array3d : matrix3d) :
  is_ok (build_table get_cmap array3d)
  = palette_ok get_cmap array3d && printable array3d
  /\ forall e, build_table get_cmap array3d = Raise e ->
               e = ValueError \/ e = OverflowError.
Proof.
  split; [|apply build_table_raise].
  destruct (build_table get_cmap array3d) as [html|e] eqn:Hrun.
  - destruct (build_table_ok_inv _ _ Hrun) as [-> ->]. reflexivity.
  - destruct (palette_ok get_cmap array3d) eqn:Hpal; [|reflexivity].
    destruct (printable array3d) eqn:Hpr; [|reflexivity].
    rewrite build_table_ok in Hrun by assumption. discriminate.
Qed.

(** X8: when the scan gets through but a colour channel does not convert,
    the call ends with ValueError or OverflowError, raised at line 103 after
    the scene was built and serialized, and leaves the world as it was. *)
Theorem palette_failure (array3d : matrix3d) (filename div_id : string)
        (w : world) :
  accepts array3d = true ->
  palette_ok get_cmap array3d = false ->
  fst (plot_3d_multilayer_graph_with_synced_colors
         spring_layout get_cmap to_html os_write os_print
         array3d filename div_id w) = w
  /\ (snd (plot_3d_multilayer_graph_with_synced_colors
             spring_layout get_cmap to_html os_write os_print
             array3d filename div_id w) = Some ValueError
      \/ snd (plot_3d_multilayer_graph_with_synced_colors
                spring_layout get_cmap to_html os_write os_print
                array3d filename div_id w)
         = Some OverflowError).
Proof.
  intros Hacc Hpal.
  unfold plot_3d_multilayer_graph_with_synced_colors, build_document.
  rewrite build_traces_accepts by exact Hacc. cbn [bind].
  destruct (build_table get_cmap array3d) as [html|e] eqn:Hrun.
  - apply build_table_ok_inv in Hrun. destruct Hrun. congruence.
  - cbn [bind fst snd]. split; [reflexivity|].
    destruct (build_table_raise _ _ Hrun) as [->| ->]; auto.
Qed.

(** X10: an edge present in both directions is drawn twice.  When
    [M[L][i][j]] and [M[L][j][i]] are both non-zero, with [i <> j], each of
    the two ordered pairs is scanned once and gives its own primitive, and
    the two primitives are the same segment with the ends exchanged. *)
Theorem both_directions_drawn (array3d : matrix3d) (L i j : nat) :
  accepts array3d = true ->
  L < List.length array3d ->
  i < node_count array3d -> j < node_count array3d -> i <> j ->
  entry (nth L array3d []) i j <> 0%Z ->
  entry (nth L array3d []) j i <> 0%Z ->
  exists traces,
    build_traces spring_layout get_cmap array3d = Ok traces
    /\ filter (intra_edge_at L) traces
       = map (fun ij => edge_trace (spring_layout (node_count array3d) 42%Z)
                                   (get_cmap "tab10" (List.length array3d))
                                   L (fst ij) (snd ij))
             (nonzero_pairs (node_count array3d) (nth L array3d []))
    /\ count (is_pair i j) (nonzero_pairs (node_count array3d) (nth L array3d [])) = 1
    /\ count (is_pair j i) (nonzero_pairs (node_count array3d) (nth L array3d [])) = 1
    /\ (let t := edge_trace (spring_layout (node_count array3d) 42%Z)
                            (get_cmap "tab10" (List.length array3d)) L i j in
        let t' := edge_trace (spring_layout (node_count array3d) 42%Z)
                             (get_cmap "tab10" (List.length array3d)) L j i in
        trace_x t' = List.rev (trace_x t) /\ trace_y t' = List.rev (trace_y t)
        /\ trace_z t' = trace_z t /\ trace_color t' = trace_color t
        /\ trace_name t' = trace_name t).
Proof.
  intros Hacc HL Hi Hj Hne Hij Hji.
  exists (expected_traces spring_layout get_cmap array3d).
  split; [now apply build_traces_accepts|].
  split; [now apply scene_intra_edges|].
  split; [now apply nonzero_pair_once|].
  split; [now apply nonzero_pair_once|].
  rewrite !edge_trace_eq. repeat split.
Qed.

(** X11: the names tell the layers apart, and the links by node.  Two marker
    sets, two edges or two planes have the same name exactly when they are of
    the same layer; two vertical links have the same name exactly when they
    are of the same node, whatever the layers they join. *)
Theorem names_identify (base_pos : nat -> float * float)
        (color_map : nat -> rgba) (n : nat) :
  (forall L L',
      trace_name (node_trace base_pos n L) = trace_name (node_trace base_pos n L')
      <-> L = L')
  /\ (forall L L' i j i' j',
         trace_name (edge_trace base_pos color_map L i j)
         = trace_name (edge_trace base_pos color_map L' i' j')
         <-> L = L')
  /\ (forall L L' t t',
         plane_trace base_pos n L = Ok t ->
         plane_trace base_pos n L' = Ok t' ->
         (trace_name t = trace_name t' <-> L = L'))
  /\ (forall k k' L L',
         trace_name (inter_edge base_pos k L) = trace_name (inter_edge base_pos k' L')
         <-> k = k').
Proof.
  assert (Hlayer : forall suffix L L',
             "Layer " ++ str_nat (L + 1) ++ suffix
             = "Layer " ++ str_nat (L' + 1) ++ suffix -> L = L').
  { intros suffix L L' H. simpl in H. inversion H as [H'].
    apply append_cancel_r, str_nat_inj in H'. lia. }
  split; [|split; [|split]].
  - intros L L'. split; [apply Hlayer | now intros ->].
  - intros L L' i j i' j'. rewrite !edge_trace_eq.
    split; [apply Hlayer | now intros ->].
  - intros L L' t t' Ht Ht'.
    pose proof (plane_trace_ok_inv _ _ _ Ht) as Hn.
    rewrite plane_trace_ok in Ht, Ht' by exact Hn.
    inversion Ht; inversion Ht'; subst.
    split; [apply Hlayer | now intros ->].
  - intros k k' L L'. rewrite !inter_edge_eq. simpl. split.
    + intros H. inversion H as [H']. now apply str_nat_inj.
    + now intros ->.
Qed.

End Further.

(* ================================================================== *)
(** ** The further properties at the example inputs *)
(* ================================================================== *)

Lemma scene_order_witness :
  accepts wide = true
  /\ option_map (@List.length Trace)
                (match build_traces layout cmap wide with
                 | Ok traces => Some traces
                 | Raise _ => None
                 end) = Some 4.
Proof.
  split; [reflexivity|].
  rewrite (@scene_order layout cmap wide eq_refl). reflexivity.
Defined.

Lemma primitive_total_witness :
  valid A = true
  /\ exists traces,
       build_traces layout cmap A = Ok traces
       /\ List.length traces
          = 2 * List.length A + total_nonzero A + node_count A * (List.length A - 1).
Proof.
  split; [reflexivity|].
  apply (primitive_total layout cmap A). reflexivity.
Defined.

Lemma plane_corners_witness :
  accepts mismatched = true
  /\ exists traces,
       build_traces layout cmap mismatched = Ok traces
       /\ forall t, In t traces -> is_plane t = true ->
            forall x, In x (trace_x t) ->
              exists k, k < node_count mismatched
                        /\ x = fst (layout (node_count mismatched) 42%Z k).
Proof.
  split; [reflexivity|].
  destruct (plane_corners layout cmap mismatched eq_refl) as (traces & Hrun & Hall).
  exists traces. split; [exact Hrun|].
  intros t Hin Hp. exact (proj1 (Hall t Hin Hp)).
Defined.

Lemma weights_ignored_witness :
  pattern A = pattern reweighted
  /\ build_traces layout cmap A = build_traces layout cmap reweighted.
Proof.
  split; [reflexivity|].
  apply (weights_ignored layout cmap A reweighted). reflexivity.
Defined.

Lemma block_only_witness :
  accepts mismatched = true
  /\ valid (crop mismatched) = true
  /\ build_traces layout cmap (crop mismatched) = build_traces layout cmap mismatched.
Proof.
  split; [reflexivity|].
  apply (block_only layout cmap mismatched). reflexivity.
Defined.

Lemma layer_independent_witness :
  accepts A = true /\ accepts relayered = true
  /\ List.length A = List.length relayered
  /\ node_count A = node_count relayered
  /\ 1 < List.length A
  /\ nth 1 A [] = nth 1 relayered []
  /\ exists traces traces',
       build_traces layout cmap A = Ok traces
       /\ build_traces layout cmap relayered = Ok traces'
       /\ filter (at_depth (z_offset 1)) traces
          = filter (at_depth (z_offset 1)) traces'.
Proof.
  repeat (split; [reflexivity || (cbv; lia)|]).
  destruct (@layer_independent layout cmap A relayered 1)
    as (traces & traces' & H1 & H2 & H3 & _);
    try reflexivity; [cbv; lia|].
  exists traces, traces'. auto.
Defined.

Lemma table_status_witness :
  build_table nan_cmap wide = Raise ValueError
  /\ build_table cmap long_entry = Raise ValueError
  /\ is_ok (build_table cmap long_entry)
     = palette_ok cmap long_entry && printable long_entry
  /\ (ValueError = ValueError \/ ValueError = OverflowError).
Proof.
  split; [vm_compute; reflexivity|].
  split; [vm_compute; reflexivity|].
  split; [apply (table_status cmap long_entry)|].
  apply (proj2 (table_status nan_cmap wide) ValueError). vm_compute. reflexivity.
Defined.

Lemma palette_failure_witness :
  accepts A = true /\ palette_ok nan_cmap A = false
  /\ fst (plot_3d_multilayer_graph_with_synced_colors
            layout nan_cmap serializer memory_write memory_print
            A "out.html" "plot-1" one_file) = one_file.
Proof.
  split; [reflexivity|]. split; [vm_compute; reflexivity|].
  apply (palette_failure layout nan_cmap serializer memory_write memory_print
                         A "out.html" "plot-1" one_file);
    [reflexivity | vm_compute; reflexivity].
Defined.

Lemma both_directions_drawn_witness :
  accepts both_ways = true /\ 0 < List.length both_ways
  /\ 0 < node_count both_ways /\ 1 < node_count both_ways /\ 0 <> 1
  /\ entry (nth 0 both_ways []) 0 1 <> 0%Z
  /\ entry (nth 0 both_ways []) 1 0 <> 0%Z
  /\ exists traces,
       build_traces layout cmap both_ways = Ok traces
       /\ count (is_pair 0 1) (nonzero_pairs (node_count both_ways) (nth 0 both_ways [])) = 1
       /\ count (is_pair 1 0) (nonzero_pairs (node_count both_ways) (nth 0 both_ways [])) = 1.
Proof.
  split; [reflexivity|]. split; [cbv; lia|]. split; [cbv; lia|].
  split; [cbv; lia|]. split; [discriminate|]. split; [discriminate|].
  split; [discriminate|].
  destruct (@both_directions_drawn layout cmap both_ways 0 0 1)
    as (traces & Hrun & _ & H01 & H10 & _);
    try reflexivity; try discriminate; try (cbv; lia).
  exists traces. auto.
Defined.

Lemma names_identify_witness :
  trace_name (node_trace (layout 3 42%Z) 3 0) = trace_name (node_trace (layout 3 42%Z) 3 1)
  <-> 0 = 1.
Proof.
  apply (proj1 (names_identify (layout 3 42%Z) (cmap "tab10" 3) 3) 0 1).
Defined.
